(** * The vSphere virtual-machine resource: create, read, update, delete

    A shallow embedding of [vsphere/resource_vsphere_virtual_machine.go].

    The resource functions talk to three collaborators that live outside the
    file: Terraform's [schema.ResourceData] (the tracked state and the
    configuration, read through [Get]/[GetOk] and written through
    [Set]/[SetId]/[SetConnInfo]), the govmomi client (finder, property
    collector, tasks) and the clock.  [ResourceData] is modelled as a flat
    attribute map read through the resource's own schema (which is part of the
    file); the govmomi client and the clock are a record of answers,
    [Platform]; every call made to them is appended to a log, so that the
    order and the number of calls can be stated.  The float64 arithmetic of
    the boot delay is the binary64 arithmetic of [SpecFloat]. *)

From Stdlib Require Import ZArith QArith Lia Ascii String SpecFloat.
From stdpp Require Import base strings gmap list pretty.

Local Open Scope Z_scope.

(** ** Values of type [interface{}] *)

(** Go's [error], and the opaque handles govmomi hands out. *)
Definition error := string.
Definition Datacenter := string.
Definition VMRef := string.
Definition Task := string.

(** What [d.Get] returns and [d.Set] receives is an [interface{}]: a value
    together with its dynamic type. *)
Inductive value :=
| VNil
| VString (s : string)
| VInt (n : Z)
| VDatacenter (dc : Datacenter).

Global Instance value_eq_dec : EqDecision value.
Proof. solve_decision. Defined.

(** [v != w] on interface values: equal only when the dynamic types and the
    values agree. *)
Definition value_neq (v w : value) : bool := bool_decide (v ≠ w).

(** ** The schema (lines 37-185) *)

#[warnings="-register-all"]
Inductive Schema :=
| SchemaString (default : string)
| SchemaInt
| SchemaList (elem : Schema)
| SchemaResource (fields : list (string * Schema)).

Definition network_interface_schema : Schema :=
  SchemaResource
    [ ("label", SchemaString EmptyString);
      ("ip_address", SchemaString EmptyString);
      ("subnet_mask", SchemaString EmptyString);
      ("adapter_type", SchemaString EmptyString) ].

Definition disk_schema : Schema :=
  SchemaResource
    [ ("template", SchemaString EmptyString);
      ("datastore", SchemaString EmptyString);
      ("size", SchemaInt);
      ("iops", SchemaInt) ].

Definition resourceVSphereVirtualMachine : Schema :=
  SchemaResource
    [ ("name", SchemaString EmptyString);
      ("boot_delay", SchemaInt);
      ("vcpu", SchemaInt);
      ("memory", SchemaInt);
      ("datacenter", SchemaString EmptyString);
      ("cluster", SchemaString EmptyString);
      ("resource_pool", SchemaString EmptyString);
      ("gateway", SchemaString EmptyString);
      ("ip_address", SchemaString EmptyString);
      ("domain", SchemaString "vsphere.local");
      ("time_zone", SchemaString "Etc/UTC");
      ("dns_suffix", SchemaList (SchemaString EmptyString));
      ("dns_server", SchemaList (SchemaString EmptyString));
      ("network_interface", SchemaList network_interface_schema);
      ("disk", SchemaList disk_schema) ].

(** A key such as [disk.0.size] is an address: its parts are separated by
    dots. *)
Fixpoint split_addr (cur : string) (s : string) : list string :=
  match s with
  | EmptyString => [cur]
  | String c s' =>
      if Ascii.eqb c "."%char then cur :: split_addr EmptyString s'
      else split_addr (cur +:+ String c EmptyString) s'
  end.

Fixpoint lookup_field (fields : list (string * Schema)) (k : string) : option Schema :=
  match fields with
  | [] => None
  | (k', s) :: rest => if String.eqb k' k then Some s else lookup_field rest k
  end.

(** The schema an address points at: a field of a resource, the count [#] of
    a list (an int), or an element of a list. *)
Fixpoint addrToSchema (addr : list string) (s : Schema) : option Schema :=
  match addr with
  | [] => Some s
  | a :: rest =>
      match s with
      | SchemaResource fields =>
          match lookup_field fields a with
          | Some s' => addrToSchema rest s'
          | None => None
          end
      | SchemaList elem =>
          if String.eqb a "#" then
            match rest with [] => Some SchemaInt | _ => None end
          else addrToSchema rest elem
      | _ => None
      end
  end.

Definition schema_of (key : string) : option Schema :=
  addrToSchema (split_addr EmptyString key) resourceVSphereVirtualMachine.

(** ** [schema.ResourceData] *)

Record ResourceData := mkResourceData {
  attrs : gmap string value;
  id : string;
  connInfo : gmap string string
}.

(** [d.Get(key)]: the value stored at [key], always of the type the schema
    gives the key; the schema's default (the zero value when it has none) if
    nothing is stored; nil for a key the schema does not have. *)
Definition Get (d : ResourceData) (key : string) : value :=
  match schema_of key with
  | Some (SchemaString default) =>
      match attrs d !! key with
      | Some (VString s) => VString s
      | _ => VString default
      end
  | Some SchemaInt =>
      match attrs d !! key with
      | Some (VInt n) => VInt n
      | _ => VInt 0
      end
  | _ => VNil
  end.

Definition is_zero (v : value) : bool :=
  match v with
  | VNil => true
  | VString s => bool_decide (s = EmptyString)
  | VInt n => bool_decide (n = 0)
  | VDatacenter _ => false
  end.

(** [d.GetOk(key)]: the value, and whether it is set to something other than
    the zero value of its type. *)
Definition GetOk (d : ResourceData) (key : string) : value * bool :=
  let v := Get d key in (v, negb (is_zero v)).

(** [d.Set(key, v)]: stores [v] when the schema has the key and [v] has the
    key's type; otherwise it reports an error, which every caller in the file
    drops, and stores nothing. *)
Definition Set' (d : ResourceData) (key : string) (v : value) : ResourceData :=
  match schema_of key, v with
  | Some (SchemaString _), VString _
  | Some SchemaInt, VInt _ =>
      mkResourceData (<[key := v]> (attrs d)) (id d) (connInfo d)
  | _, _ => d
  end.

Definition SetId (d : ResourceData) (v : string) : ResourceData :=
  mkResourceData (attrs d) v (connInfo d).

Definition SetConnInfo (d : ResourceData) (v : gmap string string) : ResourceData :=
  mkResourceData (attrs d) (id d) v.

(** ** The structures of the package *)

(** [mo.VirtualMachine], as far as the file reads it: the [summary] property
    ([Summary.Config.MemorySizeMB], [Summary.Config.NumCpu],
    [Summary.Runtime.BootTime], a pointer, and [Summary.Guest.IpAddress]).
    Instants are nanoseconds since the epoch. *)
Module mo.
Record VirtualMachine := mk {
  MemorySizeMB : Z;
  NumCpu : Z;
  BootTime : option Z;
  IpAddress : string
}.
(** [var mvm mo.VirtualMachine] *)
Definition zero : VirtualMachine := mk 0 0 None EmptyString.
End mo.

(** The fields of [networkInterface], [hardDisk] and [virtualMachine] that
    the file assigns. *)
Module networkInterface.
Record t := mk { label : string; ipAddress : string; subnetMask : string }.
Definition zero : t := mk EmptyString EmptyString EmptyString.
End networkInterface.

Module hardDisk.
Record t := mk { size : Z; iops : Z }.
Definition zero : t := mk 0 0.
End hardDisk.

Module virtualMachine.
Record t := mk {
  name : string;
  vcpu : Z;
  memoryMb : Z;
  datacenter : string;
  cluster : string;
  resourcePool : string;
  datastore : string;
  gateway : string;
  domain : string;
  timeZone : string;
  dnsSuffixes : list string;
  dnsServers : list string;
  template : string;
  networkInterfaces : list networkInterface.t;
  hardDisks : list hardDisk.t
}.
End virtualMachine.

Definition DefaultDNSSuffixes : list string := ["vsphere.local"].
Definition DefaultDNSServers : list string := ["8.8.8.8"; "8.8.4.4"].

(** ** float64 *)

(** Binary64, round to nearest even: [prec = 53], [emax = 1024]. *)
Definition float64 : Type := spec_float.

Definition float64_zero : float64 := S754_zero false.

(** [float64(n)] for an int [n]. *)
Definition float64_of_int (n : Z) : float64 := binary_normalize 53 1024 n 0 false.

Definition float64_add (x y : float64) : float64 := SFadd 53 1024 x y.
Definition float64_sub (x y : float64) : float64 := SFsub 53 1024 x y.
Definition float64_div (x y : float64) : float64 := SFdiv 53 1024 x y.

(** [x < y]; false when either is not a number. *)
Definition float64_lt (x y : float64) : bool := SFltb x y.

(** The integer part of a finite [f], toward zero. *)
Definition float64_trunc (f : float64) : option Z :=
  match f with
  | S754_zero _ => Some 0
  | S754_finite s m e =>
      let n := if bool_decide (0 ≤ e) then Z.pos m * 2 ^ e else Z.pos m `div` 2 ^ (- e) in
      Some (if s then - n else n)
  | S754_infinity _ | S754_nan => None
  end.

(** The rational a finite [f] stands for. *)
Definition float64_value (f : float64) : Q :=
  match f with
  | S754_finite s m e =>
      let v := if bool_decide (0 ≤ e) then inject_Z (Z.pos m * 2 ^ e)
               else Qmake (Z.pos m) (Z.to_pos (2 ^ (- e))) in
      if s then Qopp v else v
  | _ => 0%Q
  end.

(** ** The platform *)

(** The answers of the govmomi client and of the clock.  A resource
    function makes each lookup and submits each task at most once; it waits
    for two tasks, and the answer to [Wait] goes with the task; it calls
    [RetrieveOne] many times, and the answer may change from one call to the
    next: the first argument of [on_RetrieveOne] is the number of
    [RetrieveOne] calls made before.  [deployVirtualMachine] and
    [createVirtualMachine] are methods of [virtualMachine] defined in
    another file of the package; here each is one call, answered with an
    error or nil.  [on_Since t] is the duration [time.Since(t)], in
    nanoseconds.  [on_Seconds d] is the float64 that [d.Seconds()] gives for
    a duration [d]: package time promises the seconds as a floating point
    number and leaves the rounding to its implementation.
    [on_int_out_of_range f] is what [int(f)] gives on this implementation
    for an [f] outside the range of [int], which the language leaves open. *)
Record Platform := mkPlatform {
  on_Datacenter : string → error + Datacenter;
  on_DefaultDatacenter : error + Datacenter;
  on_VirtualMachine : Datacenter → string → error + VMRef;
  on_RetrieveOne : nat → VMRef → error + mo.VirtualMachine;
  on_Since : Z → Z;
  on_Seconds : Z → float64;
  on_int_out_of_range : float64 → Z;
  on_deployVirtualMachine : virtualMachine.t → option error;
  on_createVirtualMachine : virtualMachine.t → option error;
  on_PowerOff : VMRef → error + Task;
  on_Destroy : VMRef → error + Task;
  on_Wait : Task → option error
}.

(** [int(f)]: the integer part when it is an int (64 bits), else what the
    implementation gives. *)
Definition int_of_float64 (P : Platform) (f : float64) : Z :=
  match float64_trunc f with
  | Some n => if bool_decide (- 2 ^ 63 ≤ n < 2 ^ 63) then n else on_int_out_of_range P f
  | None => on_int_out_of_range P f
  end.

(** The calls a resource function makes, in the order it makes them. *)
Inductive call :=
| call_Datacenter (path : string)
| call_DefaultDatacenter
| call_VirtualMachine (dc : Datacenter) (name : string)
| call_RetrieveOne (vm : VMRef)
| call_Sleep (ns : Z)
| call_deployVirtualMachine (vm : virtualMachine.t)
| call_createVirtualMachine (vm : virtualMachine.t)
| call_PowerOff (vm : VMRef)
| call_Destroy (vm : VMRef)
| call_Wait (t : Task).

Definition is_RetrieveOne (c : call) : bool :=
  match c with call_RetrieveOne _ => true | _ => false end.

Definition is_Sleep (c : call) : bool :=
  match c with call_Sleep _ => true | _ => false end.

Definition is_Datacenter (c : call) : bool :=
  match c with call_Datacenter _ | call_DefaultDatacenter => true | _ => false end.

Fixpoint count (p : call → bool) (l : list call) : nat :=
  match l with
  | [] => 0
  | c :: l' => (if p c then 1 else 0) + count p l'
  end%nat.

(** ** Running a resource function *)

(** A resource function shares [d *schema.ResourceData] with its caller and
    makes calls; it returns, panics, or (the polling loop) is still running
    when the fuel is spent. *)
Record State := mkState { rd : ResourceData; calls : list call }.

Inductive outcome (A : Type) :=
| Returned (a : A)
| Panicked
| OutOfFuel.
Arguments Returned {A} a.
Arguments Panicked {A}.
Arguments OutOfFuel {A}.

Definition M (A : Type) : Type := State → outcome A * State.

Global Instance M_ret : MRet M := λ A a s, (Returned a, s).
Global Instance M_bind : MBind M := λ A B f m s,
  match m s with
  | (Returned a, s') => f a s'
  | (Panicked, s') => (Panicked, s')
  | (OutOfFuel, s') => (OutOfFuel, s')
  end.

Definition panic {A} : M A := λ s, (Panicked, s).
Definition out_of_fuel {A} : M A := λ s, (OutOfFuel, s).
Definition get_state : M State := λ s, (Returned s, s).
Definition update_rd (f : ResourceData → ResourceData) : M unit :=
  λ s, (Returned (), mkState (f (rd s)) (calls s)).
Definition record (c : call) : M unit :=
  λ s, (Returned (), mkState (rd s) (calls s ++ [c])).

(** A fresh invocation on [d]: nothing called yet. *)
Definition invoke {A} (m : M A) (d : ResourceData) : outcome A * State :=
  m (mkState d []).

(** [v.(string)] and [v.(int)]: a type assertion panics on another dynamic
    type. *)
Definition as_string (v : value) : M string :=
  match v with VString s => mret s | _ => panic end.
Definition as_int (v : value) : M Z :=
  match v with VInt n => mret n | _ => panic end.

Definition d_Get (key : string) : M value := s ← get_state; mret (Get (rd s) key).
Definition d_GetOk (key : string) : M (value * bool) := s ← get_state; mret (GetOk (rd s) key).
Definition d_Set (key : string) (v : value) : M unit := update_rd (λ d, Set' d key v).
Definition d_SetId (v : string) : M unit := update_rd (λ d, SetId d v).
Definition d_SetConnInfo (v : gmap string string) : M unit := update_rd (λ d, SetConnInfo d v).

(** 64-bit wrap-around of [time.Duration] arithmetic. *)
Definition wrap64 (z : Z) : Z := (z + 2 ^ 63) mod 2 ^ 64 - 2 ^ 63.

Definition Second : Z := 1000000000.

(** [delaySecond] (lines 26-28). *)
Definition delaySecond (n : Z) : M unit := record (call_Sleep (wrap64 (n * Second))).

(** ** The resource functions *)

Section resource.
Variable P : Platform.

(** The calls, as the functions below make them. *)
Definition finder_Datacenter (path : string) : M (error + Datacenter) :=
  record (call_Datacenter path);; mret (on_Datacenter P path).

Definition finder_DefaultDatacenter : M (error + Datacenter) :=
  record call_DefaultDatacenter;; mret (on_DefaultDatacenter P).

Definition finder_VirtualMachine (dc : Datacenter) (name : string) : M (error + VMRef) :=
  record (call_VirtualMachine dc name);; mret (on_VirtualMachine P dc name).

(** [err = collector.RetrieveOne(ctx, vm.Reference(), []string{"summary"}, &mvm)]:
    on success the summary is loaded into [mvm]; on failure [mvm] is left
    as it was. *)
Definition collector_RetrieveOne (vm : VMRef) (mvm : mo.VirtualMachine)
  : M (option error * mo.VirtualMachine) :=
  s ← get_state;
  record (call_RetrieveOne vm);;
  match on_RetrieveOne P (count is_RetrieveOne (calls s)) vm with
  | inl err => mret (Some err, mvm)
  | inr loaded => mret (None, loaded)
  end.

Definition vm_deployVirtualMachine (vm : virtualMachine.t) : M (option error) :=
  record (call_deployVirtualMachine vm);; mret (on_deployVirtualMachine P vm).

Definition vm_createVirtualMachine (vm : virtualMachine.t) : M (option error) :=
  record (call_createVirtualMachine vm);; mret (on_createVirtualMachine P vm).

Definition vm_PowerOff (vm : VMRef) : M (error + Task) :=
  record (call_PowerOff vm);; mret (on_PowerOff P vm).

Definition vm_Destroy (vm : VMRef) : M (error + Task) :=
  record (call_Destroy vm);; mret (on_Destroy P vm).

Definition task_Wait (t : Task) : M (option error) :=
  record (call_Wait t);; mret (on_Wait P t).

(** The datacenter lookup that opens read and delete (lines 312-322 and
    399-409). *)
Definition lookupDatacenter : M (error + Datacenter) :=
  '(v, ok) ← d_GetOk "datacenter";
  if ok : bool then
    path ← as_string v;
    finder_Datacenter path
  else finder_DefaultDatacenter.

(** The loop of lines 364-370. *)
Fixpoint poll (fuel : nat) (vm : VMRef) (mvm : mo.VirtualMachine) (ip_address : string)
  : M (mo.VirtualMachine * string) :=
  if bool_decide (ip_address = EmptyString) then
    match fuel with
    | O => out_of_fuel
    | S fuel' =>
        '(_, mvm) ← collector_RetrieveOne vm mvm;
        let ip_address := mo.IpAddress mvm in
        delaySecond 1;;
        poll fuel' vm mvm ip_address
    end
  else mret (mvm, ip_address).

(** Lines 341-375: the address of the first interface.  The float64
    [remaining_boot_delay] is computed, compared and cut down to an int as
    line 354, line 356 and line 358 do. *)
Definition resolveAddress (fuel : nat) (vm : VMRef) (mvm : mo.VirtualMachine) : M string :=
  static ← d_Get "network_interface.0.ip_address";
  if value_neq static (VString EmptyString) then
    as_string static
  else
    match mo.BootTime mvm with
    | None => panic
    | Some BootTime =>
        let duration := on_Since P BootTime in
        boot_delay ← d_Get "boot_delay" ≫= as_int;
        let remaining_boot_delay :=
          float64_sub (float64_of_int boot_delay) (on_Seconds P duration) in
        if float64_lt float64_zero remaining_boot_delay then
          delaySecond (int_of_float64 P remaining_boot_delay);;
          '(_, mvm) ← collector_RetrieveOne vm mvm;
          let ip_address := mo.IpAddress mvm in
          '(mvm, _) ← poll fuel vm mvm ip_address;
          mret (mo.IpAddress mvm)
        else
          mret (mo.IpAddress mvm)
    end.

(** Lines 305-386. *)
Definition resourceVSphereVirtualMachineRead (fuel : nat) : M (option error) :=
  r ← lookupDatacenter;
  match r with
  | inl err => mret (Some err)
  | inr dc =>
      name ← d_Get "name" ≫= as_string;
      r ← finder_VirtualMachine dc name;
      match r with
      | inl _ =>
          d_SetId EmptyString;;
          mret None
      | inr vm =>
          '(_, mvm) ← collector_RetrieveOne vm mo.zero;
          d_Set "datacenter" (VDatacenter dc);;
          d_Set "memory" (VInt (mo.MemorySizeMB mvm));;
          d_Set "cpu" (VInt (mo.NumCpu mvm));;
          ip_address ← resolveAddress fuel vm mvm;
          d_Set "ip_address" (VString ip_address);;
          d_SetConnInfo {[ "host" := ip_address ]};;
          mret None
      end
  end.

(** Lines 388-390. *)
Definition resourceVSphereVirtualMachineUpdate : M (option error) :=
  mret None.

(** Lines 392-441. *)
Definition resourceVSphereVirtualMachineDelete : M (option error) :=
  r ← lookupDatacenter;
  match r with
  | inl err => mret (Some err)
  | inr dc =>
      name ← d_Get "name" ≫= as_string;
      r ← finder_VirtualMachine dc name;
      match r with
      | inl err => mret (Some err)
      | inr vm =>
          r ← vm_PowerOff vm;
          match r with
          | inl err => mret (Some err)
          | inr task =>
              err ← task_Wait task;
              match err with
              | Some err => mret (Some err)
              | None =>
                  r ← vm_Destroy vm;
                  match r with
                  | inl err => mret (Some err)
                  | inr task =>
                      err ← task_Wait task;
                      match err with
                      | Some err => mret (Some err)
                      | None =>
                          d_SetId EmptyString;;
                          mret None
                      end
                  end
              end
          end
      end
  end.

(** [make([]T, n)]: [n] zero values; a negative length panics. *)
Definition make {A} (n : Z) (zero : A) : M (list A) :=
  if bool_decide (n < 0) then panic else mret (replicate (Z.to_nat n) zero).

(** [for i := from; i < from + count; i++ { body }] over the variables
    [st] the body assigns. *)
Fixpoint for_range {St} (from count : nat) (body : nat → St → M St) (st : St) : M St :=
  match count with
  | O => mret st
  | S count' => st' ← body from st; for_range (S from) count' body st'
  end.

(** The same, for a body that may [return err] out of the function. *)
Fixpoint for_range_err {St} (from count : nat) (body : nat → St → M (error + St)) (st : St)
  : M (error + St) :=
  match count with
  | O => mret (inr st)
  | S count' =>
      r ← body from st;
      match r with
      | inl err => mret (inl err)
      | inr st' => for_range_err (S from) count' body st'
      end
  end.

(** [if v, ok := d.GetOk(key); ok { field = v.(string) }] on a field that
    is still the empty string. *)
Definition optional_string (key : string) : M string :=
  '(v, ok) ← d_GetOk key;
  if ok : bool then as_string v else mret EmptyString.

(** The bodies of the loops of lines 225-228 and 236-239. *)
Definition append_item (list_name : string) (i : nat) (items : list string) : M (list string) :=
  let s := list_name +:+ "." +:+ pretty i in
  item ← d_Get s ≫= as_string;
  mret (items ++ [item]).

(** The body of the loop of lines 246-253. *)
Definition network_body (i : nat) (networks : list networkInterface.t)
  : M (list networkInterface.t) :=
  let prefix := "network_interface." +:+ pretty i in
  label ← d_Get (prefix +:+ ".label") ≫= as_string;
  let networks :=
    alter (λ n, networkInterface.mk label (networkInterface.ipAddress n)
                  (networkInterface.subnetMask n)) i networks in
  v ← d_Get (prefix +:+ ".ip_address");
  if value_neq v VNil then
    ipAddress ← d_Get (prefix +:+ ".ip_address") ≫= as_string;
    subnetMask ← d_Get (prefix +:+ ".subnet_mask") ≫= as_string;
    mret (alter (λ n, networkInterface.mk (networkInterface.label n) ipAddress subnetMask)
            i networks)
  else mret networks.

Definition set_size (i : nat) (v : Z) (disks : list hardDisk.t) : list hardDisk.t :=
  alter (λ h, hardDisk.mk v (hardDisk.iops h)) i disks.

Definition set_iops (i : nat) (v : Z) (disks : list hardDisk.t) : list hardDisk.t :=
  alter (λ h, hardDisk.mk (hardDisk.size h) v) i disks.

(** The body of the loop of lines 259-284, over [vm.template],
    [vm.datastore] and [disks]. *)
Definition disk_body (i : nat) (st : string * string * list hardDisk.t)
  : M (error + string * string * list hardDisk.t) :=
  let '(template, datastore, disks) := st in
  let prefix := "disk." +:+ pretty i in
  r ← (if bool_decide (i = 0%nat) then
         v ← d_Get (prefix +:+ ".template");
         r ← (if value_neq v (VString EmptyString) then
                template ← d_Get (prefix +:+ ".template") ≫= as_string;
                mret (inr (template, disks))
              else
                v ← d_Get (prefix +:+ ".size");
                if value_neq v (VString EmptyString) then
                  size ← d_Get (prefix +:+ ".size") ≫= as_int;
                  mret (inr (template, set_size i size disks))
                else
                  mret (inl "If template argument is not specified, size argument is required."));
         match r with
         | inl err => mret (inl err)
         | inr (template, disks) =>
             v ← d_Get (prefix +:+ ".datastore");
             if value_neq v (VString EmptyString) then
               datastore ← d_Get (prefix +:+ ".datastore") ≫= as_string;
               mret (inr (template, datastore, disks))
             else mret (inr (template, datastore, disks))
         end
       else
         v ← d_Get (prefix +:+ ".size");
         if value_neq v (VString EmptyString) then
           size ← d_Get (prefix +:+ ".size") ≫= as_int;
           mret (inr (template, datastore, set_size i size disks))
         else mret (inl "Size argument is required."));
  match r with
  | inl err => mret (inl err)
  | inr (template, datastore, disks) =>
      v ← d_Get (prefix +:+ ".iops");
      if value_neq v (VString EmptyString) then
        iops ← d_Get (prefix +:+ ".iops") ≫= as_int;
        mret (inr (template, datastore, set_iops i iops disks))
      else mret (inr (template, datastore, disks))
  end.

(** Lines 192-286 of create: the [virtualMachine] that [d] describes, or
    the error create returns for a disk without a size. *)
Definition buildVirtualMachine : M (error + virtualMachine.t) :=
  name ← d_Get "name" ≫= as_string;
  vcpu ← d_Get "vcpu" ≫= as_int;
  memoryMb ← d_Get "memory" ≫= as_int;
  datacenter ← optional_string "datacenter";
  cluster ← optional_string "cluster";
  resourcePool ← optional_string "resource_pool";
  gateway ← optional_string "gateway";
  domain ← optional_string "domain";
  timeZone ← optional_string "time_zone";
  dns_suffix ← d_Get "dns_suffix.#" ≫= as_int;
  dnsSuffixes ← (if bool_decide (0 < dns_suffix)
                 then for_range 0 (Z.to_nat dns_suffix) (append_item "dns_suffix") []
                 else mret DefaultDNSSuffixes);
  dns_server ← d_Get "dns_server.#" ≫= as_int;
  dnsServers ← (if bool_decide (0 < dns_server)
                then for_range 0 (Z.to_nat dns_server) (append_item "dns_server") []
                else mret DefaultDNSServers);
  networksCount ← d_Get "network_interface.#" ≫= as_int;
  networks ← make networksCount networkInterface.zero;
  networks ← for_range 0 (Z.to_nat networksCount) network_body networks;
  diskCount ← d_Get "disk.#" ≫= as_int;
  disks ← make diskCount hardDisk.zero;
  r ← for_range_err 0 (Z.to_nat diskCount) disk_body (EmptyString, EmptyString, disks);
  match r with
  | inl err => mret (inl err)
  | inr (template, datastore, disks) =>
      mret (inr (virtualMachine.mk name vcpu memoryMb datacenter cluster resourcePool
                   datastore gateway domain timeZone dnsSuffixes dnsServers template
                   networks disks))
  end.

(** Lines 189-303. *)
Definition resourceVSphereVirtualMachineCreate (fuel : nat) : M (option error) :=
  r ← buildVirtualMachine;
  match r with
  | inl err => mret (Some err)
  | inr vm =>
      err ← (if bool_decide (virtualMachine.template vm ≠ EmptyString)
             then vm_deployVirtualMachine vm
             else vm_createVirtualMachine vm);
      match err with
      | Some err => mret (Some ("error: " +:+ err))
      | None =>
          d_SetId (virtualMachine.name vm);;
          resourceVSphereVirtualMachineRead fuel
      end
  end.

End resource.

Arguments Get : simpl never.
Arguments Set' : simpl never.
Arguments schema_of : simpl never.
Arguments wrap64 : simpl never.
Arguments float64_of_int : simpl never.
Arguments float64_sub : simpl never.
Arguments float64_add : simpl never.
Arguments float64_div : simpl never.
Arguments float64_lt : simpl never.
Arguments int_of_float64 : simpl never.
Arguments d_Get : simpl never.
Arguments d_GetOk : simpl never.
Arguments lookupDatacenter : simpl never.
Arguments resolveAddress : simpl never.
Arguments optional_string : simpl never.

(** ** Reading the results *)

(** The string, or the int, [d.Get(key)] holds. *)
Definition GetString (d : ResourceData) (key : string) : string :=
  match Get d key with VString s => s | _ => EmptyString end.

Definition GetInt (d : ResourceData) (key : string) : Z :=
  match Get d key with VInt n => n | _ => 0 end.

(** The datacenter lookup read and delete start with, and the platform's
    answer to it. *)
Definition datacenter_call (d : ResourceData) : call :=
  if (GetOk d "datacenter").2 then call_Datacenter (GetString d "datacenter")
  else call_DefaultDatacenter.

Definition datacenter_answer (P : Platform) (d : ResourceData) : error + Datacenter :=
  if (GetOk d "datacenter").2 then on_Datacenter P (GetString d "datacenter")
  else on_DefaultDatacenter P.

(** [remaining_boot_delay] of line 354 for a machine booted at [BootTime],
    whether it is positive (line 356), and the nanoseconds the read sleeps
    for it (line 358). *)
Definition remaining_boot_delay (P : Platform) (d : ResourceData) (BootTime : Z) : float64 :=
  float64_sub (float64_of_int (GetInt d "boot_delay")) (on_Seconds P (on_Since P BootTime)).

Definition boot_delay_left (P : Platform) (d : ResourceData) (BootTime : Z) : bool :=
  float64_lt float64_zero (remaining_boot_delay P d BootTime).

Definition boot_delay_sleep (P : Platform) (d : ResourceData) (BootTime : Z) : Z :=
  wrap64 (int_of_float64 P (remaining_boot_delay P d BootTime) * Second).

(** An action that leaves the resource data and the call log as they are. *)
Definition readonly {A} (m : M A) : Prop := ∀ s, (m s).2 = s.

(** Decimal digits: what [fmt.Sprintf("%d", i)] is made of. *)
Definition is_digit (c : ascii) : bool :=
  bool_decide (c ∈ ["0"; "1"; "2"; "3"; "4"; "5"; "6"; "7"; "8"; "9"]%char).

Fixpoint all_digits (s : string) : bool :=
  match s with
  | EmptyString => true
  | String c s' => is_digit c && all_digits s'
  end.

(** [mvm] after the first [RetrieveOne] of a read (line 335): the summary
    loaded, or the zero value when the retrieval fails. *)
Definition first_summary (P : Platform) (vm : VMRef) : mo.VirtualMachine :=
  match on_RetrieveOne P 0 vm with inl _ => mo.zero | inr loaded => loaded end.

(** What a read writes once it has an address: the attribute and the
    connection info. *)
Definition with_address (d : ResourceData) (ip_address : string) : ResourceData :=
  SetConnInfo (Set' d "ip_address" (VString ip_address)) {[ "host" := ip_address ]}.

(** One round of the polling loop. *)
Definition poll_round (vm : VMRef) : list call := [call_RetrieveOne vm; call_Sleep Second].

(** The provisioning call of create for [vm], and the platform's answer. *)
Definition provision_call (vm : virtualMachine.t) : call :=
  if bool_decide (virtualMachine.template vm ≠ EmptyString)
  then call_deployVirtualMachine vm else call_createVirtualMachine vm.

Definition provision_answer (P : Platform) (vm : virtualMachine.t) : option error :=
  if bool_decide (virtualMachine.template vm ≠ EmptyString)
  then on_deployVirtualMachine P vm else on_createVirtualMachine P vm.


(** ** Concrete resources and platforms *)

Definition config (l : list (string * value)) : ResourceData :=
  mkResourceData (list_to_map l) EmptyString ∅.

(** One interface on DHCP, one disk of 20480, a boot delay of 30 seconds. *)
Definition vm1 : ResourceData :=
  config [ ("name", VString "vm1"); ("vcpu", VInt 2); ("memory", VInt 2048);
           ("boot_delay", VInt 30);
           ("network_interface.#", VInt 1); ("network_interface.0.label", VString "eth0");
           ("disk.#", VInt 1); ("disk.0.size", VInt 20480) ].

(** The same without a boot delay. *)
Definition vm1_no_delay : ResourceData :=
  config [ ("name", VString "vm1"); ("vcpu", VInt 2); ("memory", VInt 2048);
           ("network_interface.#", VInt 1); ("network_interface.0.label", VString "eth0");
           ("disk.#", VInt 1); ("disk.0.size", VInt 20480) ].

(** The same with a static address on the first interface. *)
Definition vm1_static : ResourceData :=
  config [ ("name", VString "vm1"); ("vcpu", VInt 2); ("memory", VInt 2048);
           ("boot_delay", VInt 30);
           ("network_interface.#", VInt 1); ("network_interface.0.label", VString "eth0");
           ("network_interface.0.ip_address", VString "10.0.0.9");
           ("network_interface.0.subnet_mask", VString "255.255.255.0");
           ("disk.#", VInt 1); ("disk.0.size", VInt 20480) ].

(** A first disk with neither a template nor a size. *)
Definition vm1_no_size : ResourceData :=
  config [ ("name", VString "vm1"); ("vcpu", VInt 2); ("memory", VInt 2048);
           ("network_interface.#", VInt 1); ("network_interface.0.label", VString "eth0");
           ("disk.#", VInt 1) ].

(** A running machine of 2048 MB and 2 CPUs, booted at instant 0, whose
    guest reports [ip]. *)
Definition running (ip : string) : mo.VirtualMachine := mo.mk 2048 2 (Some 0) ip.

(** The machine create builds from [vm1_no_size]: its disk has size 0. *)
Definition vm1_no_size_machine : virtualMachine.t :=
  virtualMachine.mk "vm1" 2 2048 EmptyString EmptyString EmptyString EmptyString EmptyString
    "vsphere.local" "Etc/UTC" DefaultDNSSuffixes DefaultDNSServers EmptyString
    [networkInterface.mk "eth0" EmptyString EmptyString] [hardDisk.mk 0 0].

(** [Duration.Seconds] as package time has it, for a duration [d] in
    nanoseconds: [float64(d / Second) + float64(d % Second) / 1e9]. *)
Definition Seconds (d : Z) : float64 :=
  float64_add (float64_of_int (d `quot` Second))
    (float64_div (float64_of_int (d `rem` Second)) (float64_of_int 1000000000)).

(** [int(f)] out of range, as compiled for amd64. *)
Definition int_out_of_range (f : float64) : Z := - 2 ^ 63.

(** A platform on which every lookup and every task succeeds; the machine
    booted [since_boot] nanoseconds ago and the collector answers with
    [summaries]. *)
Definition stub (summaries : nat → error + mo.VirtualMachine) (since_boot : Z) : Platform :=
  mkPlatform (λ path, inr path) (inr "dc1") (λ _ name, inr ("vm:" +:+ name))
    (λ n _, summaries n) (λ _, since_boot) Seconds int_out_of_range (λ _, None) (λ _, None)
    (λ _, inr "task-poweroff") (λ _, inr "task-destroy") (λ _, None).

(** The collector that reports no address [empties] times, then ["10.0.0.5"]. *)
Definition address_after (empties : nat) (n : nat) : error + mo.VirtualMachine :=
  inr (running (if bool_decide (n < empties)%nat then EmptyString else "10.0.0.5")).

(** The collector that always fails. *)
Definition no_summary (n : nat) : error + mo.VirtualMachine := inl "retrieve failed".


(** The stub on which no datacenter is found. *)
Definition stub_no_datacenter : Platform :=
  mkPlatform (λ _, inl "datacenter not found") (inl "datacenter not found")
    (λ _ name, inr ("vm:" +:+ name))
    (λ n _, address_after 0 n) (λ _, 0) Seconds int_out_of_range (λ _, None) (λ _, None)
    (λ _, inr "task-poweroff") (λ _, inr "task-destroy") (λ _, None).

(** The stub on which no virtual machine is found. *)
Definition stub_no_vm : Platform :=
  mkPlatform (λ path, inr path) (inr "dc1") (λ _ _, inl "vm not found")
    (λ n _, address_after 0 n) (λ _, 0) Seconds int_out_of_range (λ _, None) (λ _, None)
    (λ _, inr "task-poweroff") (λ _, inr "task-destroy") (λ _, None).

(** The stub on which the creation task fails. *)
Definition stub_create_fails : Platform :=
  mkPlatform (λ path, inr path) (inr "dc1") (λ _ name, inr ("vm:" +:+ name))
    (λ n _, address_after 0 n) (λ _, 0) Seconds int_out_of_range
    (λ _, Some "clone failed") (λ _, Some "create failed")
    (λ _, inr "task-poweroff") (λ _, inr "task-destroy") (λ _, None).

(** The stub on which waiting for the power-off task fails. *)
Definition stub_power_off_fails : Platform :=
  mkPlatform (λ path, inr path) (inr "dc1") (λ _ name, inr ("vm:" +:+ name))
    (λ n _, address_after 0 n) (λ _, 0) Seconds int_out_of_range (λ _, None) (λ _, None)
    (λ _, inr "task-poweroff") (λ _, inr "task-destroy")
    (λ t, if bool_decide (t = "task-poweroff") then Some "power off failed" else None).


(** ** The sentences of the specification that the code does not satisfy *)

(** With no boot delay left the read goes on to poll: it does not return
    before it has a guest address. *)
Definition spent_budget_goes_polling : Prop :=
  ∀ P d fuel dc vm mvm BootTime s',
    datacenter_answer P d = inr dc →
    on_VirtualMachine P dc (GetString d "name") = inr vm →
    Get d "network_interface.0.ip_address" = VString EmptyString →
    on_RetrieveOne P 0 vm = inr mvm →
    mo.BootTime mvm = Some BootTime →
    boot_delay_left P d BootTime = false →
    invoke (resourceVSphereVirtualMachineRead P fuel) d = (Returned None, s') →
    Get (rd s') "ip_address" ≠ VString EmptyString.

(** A create that returns an error leaves the identity empty. *)
Definition failed_create_leaves_no_identity : Prop :=
  ∀ P d fuel err s',
    id d = EmptyString →
    invoke (resourceVSphereVirtualMachineCreate P fuel) d = (Returned (Some err), s') →
    id (rd s') = EmptyString.

(** A create without template and without a size on the first disk returns
    an error and calls nothing. *)
Definition missing_size_is_rejected : Prop :=
  ∀ P d fuel,
    Get d "disk.0.template" = VString EmptyString →
    attrs d !! "disk.0.size" = None →
    0 < GetInt d "disk.#" →
    ∃ err s', invoke (resourceVSphereVirtualMachineCreate P fuel) d = (Returned (Some err), s')
              ∧ calls s' = [].

(** Some update does something: it changes the resource data or makes a
    call. *)
Definition update_applies_changes : Prop :=
  ∃ d, (invoke resourceVSphereVirtualMachineUpdate d).2 ≠ mkState d [].

(** *** Closed forms, for the statements about create and read *)

(** The interface the attributes of [d] describe at index [i]. *)
Definition network_of (d : ResourceData) (i : nat) : networkInterface.t :=
  let prefix := "network_interface." +:+ pretty i in
  networkInterface.mk (GetString d (prefix +:+ ".label"))
    (GetString d (prefix +:+ ".ip_address")) (GetString d (prefix +:+ ".subnet_mask")).

(** The disk the attributes of [d] describe at index [i]; the size of the
    first disk is not read when it names a template. *)
Definition disk_of (d : ResourceData) (i : nat) : hardDisk.t :=
  let prefix := "disk." +:+ pretty i in
  hardDisk.mk
    (if bool_decide (i = 0%nat ∧ GetString d (prefix +:+ ".template") ≠ EmptyString)
     then 0 else GetInt d (prefix +:+ ".size"))
    (GetInt d (prefix +:+ ".iops")).

(** The first [n] items of the list [list_name]. *)
Definition items_of (d : ResourceData) (list_name : string) (n : nat) : list string :=
  (λ i, GetString d (list_name +:+ "." +:+ pretty i)) <$> seq 0 n.

(** An attribute of the first disk, when there is one among [n] disks. *)
Definition first_disk_string (d : ResourceData) (attr : string) (n : nat) : string :=
  match n with O => EmptyString | S _ => GetString d ("disk.0." +:+ attr) end.

(** The machine that lines 192-286 build from [d]. *)
Definition machine_of (d : ResourceData) : virtualMachine.t :=
  let disks := Z.to_nat (GetInt d "disk.#") in
  virtualMachine.mk (GetString d "name") (GetInt d "vcpu") (GetInt d "memory")
    (GetString d "datacenter") (GetString d "cluster") (GetString d "resource_pool")
    (first_disk_string d "datastore" disks)
    (GetString d "gateway") (GetString d "domain") (GetString d "time_zone")
    (if bool_decide (0 < GetInt d "dns_suffix.#")
     then items_of d "dns_suffix" (Z.to_nat (GetInt d "dns_suffix.#"))
     else DefaultDNSSuffixes)
    (if bool_decide (0 < GetInt d "dns_server.#")
     then items_of d "dns_server" (Z.to_nat (GetInt d "dns_server.#"))
     else DefaultDNSServers)
    (first_disk_string d "template" disks)
    (network_of d <$> seq 0 (Z.to_nat (GetInt d "network_interface.#")))
    (disk_of d <$> seq 0 disks).

(** The calls that change nothing on the platform. *)
Definition is_read_call (c : call) : bool :=
  match c with
  | call_Datacenter _ | call_DefaultDatacenter | call_VirtualMachine _ _
  | call_RetrieveOne _ | call_Sleep _ => true
  | _ => false
  end.

(** What an action keeps: the resource data, and the calls made before it,
    to which it adds calls of a read only. *)
Definition reads_only (s s' : State) : Prop :=
  rd s' = rd s ∧ ∃ l, calls s' = calls s ++ l ∧ Forall (λ c, is_read_call c = true) l.

(** A machine that is not running: its summary has no boot time. *)
Definition powered_off : mo.VirtualMachine := mo.mk 2048 2 None EmptyString.

(** The collector that fails [failures] times after its first answer, then
    reports ["10.0.0.5"]. *)
Definition address_after_failures (failures : nat) (n : nat) : error + mo.VirtualMachine :=
  match n with
  | O => inr (running EmptyString)
  | S n' => if bool_decide (n' < failures)%nat then inl "retrieve failed"
            else inr (running "10.0.0.5")
  end.

(** Cloned from a template, with a second disk, a second interface with a
    static address and two DNS suffixes. *)
Definition vm2 : ResourceData :=
  config [ ("name", VString "vm2"); ("vcpu", VInt 4); ("memory", VInt 4096);
           ("dns_suffix.#", VInt 2); ("dns_suffix.0", VString "a.example");
           ("dns_suffix.1", VString "b.example");
           ("network_interface.#", VInt 2); ("network_interface.0.label", VString "eth0");
           ("network_interface.1.label", VString "eth1");
           ("network_interface.1.ip_address", VString "10.0.1.9");
           ("network_interface.1.subnet_mask", VString "255.255.255.0");
           ("disk.#", VInt 2); ("disk.0.template", VString "centos");
           ("disk.0.size", VInt 999); ("disk.0.iops", VInt 100);
           ("disk.1.size", VInt 10240); ("disk.1.iops", VInt 500) ].

(** ** Facts about [ResourceData] *)

Lemma Get_string d key default :
  schema_of key = Some (SchemaString default) → Get d key = VString (GetString d key).
Proof.
  intros H. unfold GetString, Get. rewrite H.
  destruct (attrs d !! key) as [[]|]; reflexivity.
Qed.

Lemma Get_int d key :
  schema_of key = Some SchemaInt → Get d key = VInt (GetInt d key).
Proof.
  intros H. unfold GetInt, Get. rewrite H.
  destruct (attrs d !! key) as [[]|]; reflexivity.
Qed.

Lemma Get_Set_string d key default s :
  schema_of key = Some (SchemaString default) → Get (Set' d key (VString s)) key = VString s.
Proof.
  intros H. unfold Get, Set'. rewrite H. simpl. by rewrite lookup_insert_eq.
Qed.

Lemma Get_Set_int d key n :
  schema_of key = Some SchemaInt → Get (Set' d key (VInt n)) key = VInt n.
Proof.
  intros H. unfold Get, Set'. rewrite H. simpl. by rewrite lookup_insert_eq.
Qed.

Lemma Get_Set_ne d key key' v : key ≠ key' → Get (Set' d key v) key' = Get d key'.
Proof.
  intros H. unfold Get, Set'.
  destruct (schema_of key) as [[]|], v; try reflexivity;
    simpl; by rewrite lookup_insert_ne.
Qed.

Lemma Set_rejected d key v : schema_of key = None → Set' d key v = d.
Proof. intros H. unfold Set'. by rewrite H. Qed.

Lemma Set_Datacenter d key dc : Set' d key (VDatacenter dc) = d.
Proof. unfold Set'. by destruct (schema_of key) as [[]|]. Qed.

Lemma id_Set d key v : id (Set' d key v) = id d.
Proof. unfold Set'. by destruct (schema_of key) as [[]|], v. Qed.

(** ** Running the monad *)

Lemma run_bind {A B} (m : M A) (k : A → M B) s :
  (m ≫= k) s =
  match m s with
  | (Returned a, s') => k a s'
  | (Panicked, s') => (Panicked, s')
  | (OutOfFuel, s') => (OutOfFuel, s')
  end.
Proof. reflexivity. Qed.

Lemma run_ret {A} (a : A) s : (mret a : M A) s = (Returned a, s).
Proof. reflexivity. Qed.

Lemma d_Get_string key default s :
  schema_of key = Some (SchemaString default) →
  d_Get key s = (Returned (VString (GetString (rd s) key)), s).
Proof.
  intros H. unfold d_Get, get_state, mbind, M_bind, mret, M_ret.
  by rewrite (Get_string _ _ _ H).
Qed.

Lemma d_Get_int key s :
  schema_of key = Some SchemaInt →
  d_Get key s = (Returned (VInt (GetInt (rd s) key)), s).
Proof.
  intros H. unfold d_Get, get_state, mbind, M_bind, mret, M_ret.
  by rewrite (Get_int _ _ H).
Qed.

Lemma run_lookupDatacenter P s :
  lookupDatacenter P s =
  (Returned (datacenter_answer P (rd s)), mkState (rd s) (calls s ++ [datacenter_call (rd s)])).
Proof.
  unfold lookupDatacenter, datacenter_answer, datacenter_call, d_GetOk, GetOk.
  rewrite (Get_string (rd s) "datacenter" EmptyString) by reflexivity.
  rewrite run_bind. unfold get_state. rewrite run_bind, run_ret.
  rewrite (Get_string (rd s) "datacenter" EmptyString) by reflexivity.
  simpl. by destruct (negb _).
Qed.

(** Unfolds the calls and the writes, and runs them. *)
Ltac unfold_actions :=
  unfold finder_Datacenter, finder_DefaultDatacenter, finder_VirtualMachine,
    collector_RetrieveOne, vm_deployVirtualMachine, vm_createVirtualMachine,
    vm_PowerOff, vm_Destroy, task_Wait, delaySecond,
    d_Set, d_SetId, d_SetConnInfo, update_rd, record, get_state, panic, out_of_fuel.

Ltac run_Get :=
  match goal with
  | |- context [d_Get ?key ?s] =>
      first [ rewrite (d_Get_string key EmptyString s) by reflexivity
            | rewrite (d_Get_int key s) by reflexivity ]
  end.

Ltac run :=
  repeat (first [ rewrite run_lookupDatacenter | run_Get
                | progress (unfold_actions; unfold mbind, mret, M_bind, M_ret; cbn) ]).

Ltac case_answer :=
  match goal with
  | |- context [match ?x with inl _ => _ | inr _ => _ end] => destruct x eqn:?
  | |- context [match ?x with Some _ => _ | None => _ end] => destruct x eqn:?
  end.

(** ** Read: a machine that is gone *)

Lemma read_vm_not_found_run P d fuel dc err :
  datacenter_answer P d = inr dc →
  on_VirtualMachine P dc (GetString d "name") = inl err →
  invoke (resourceVSphereVirtualMachineRead P fuel) d =
  (Returned None,
   mkState (SetId d EmptyString)
     [datacenter_call d; call_VirtualMachine dc (GetString d "name")]).
Proof.
  intros Hdc Hvm. unfold invoke, resourceVSphereVirtualMachineRead.
  run. rewrite Hdc. run. rewrite Hvm. run. reflexivity.
Qed.

(** C6. When the datacenter is resolved and the lookup of the machine by
    name in it fails, the read sets the identity to the empty string and
    returns nil; it has made the two lookups and nothing else, and has left
    the attributes alone. *)
Theorem read_vm_not_found_clears_id P d fuel dc err :
  datacenter_answer P d = inr dc →
  on_VirtualMachine P dc (GetString d "name") = inl err →
  ∃ s', invoke (resourceVSphereVirtualMachineRead P fuel) d = (Returned None, s') ∧
        id (rd s') = EmptyString ∧
        attrs (rd s') = attrs d ∧
        calls s' = [datacenter_call d; call_VirtualMachine dc (GetString d "name")].
Proof.
  intros Hdc Hvm. rewrite (read_vm_not_found_run P d fuel dc err Hdc Hvm).
  eexists. split; [reflexivity|]. done.
Qed.

Lemma read_vm_not_found_clears_id_witness :
  ∃ s', invoke (resourceVSphereVirtualMachineRead stub_no_vm 0) vm1 = (Returned None, s') ∧
        id (rd s') = EmptyString ∧
        attrs (rd s') = attrs vm1 ∧
        calls s' = [datacenter_call vm1; call_VirtualMachine "dc1" (GetString vm1 "name")].
Proof.
  apply (read_vm_not_found_clears_id stub_no_vm vm1 0%nat "dc1" "vm not found");
    vm_compute; reflexivity.
Defined.

(** ** Update *)

(** C9, as the code has it. Update returns nil at once: it makes no call
    and leaves the resource data as they are. *)
Theorem update_does_nothing d :
  invoke resourceVSphereVirtualMachineUpdate d = (Returned None, mkState d []).
Proof. reflexivity. Qed.

(** C9 as stated fails: no update changes anything. *)
Lemma update_applies_changes_false : ¬ update_applies_changes.
Proof. intros [d H]. apply H. reflexivity. Qed.

(** ** Delete *)

Lemma is_Datacenter_datacenter_call d : is_Datacenter (datacenter_call d) = true.
Proof. unfold datacenter_call. by destruct (GetOk d "datacenter").2. Qed.

(** Takes membership in an explicit list of calls apart. *)
Ltac elems :=
  repeat match goal with
    | H : _ ∈ _ :: _ |- _ => apply elem_of_cons in H as [H|H]
    | H : _ ∈ [] |- _ => by apply elem_of_nil in H
    | H : _ = datacenter_call _ |- _ =>
        apply (f_equal is_Datacenter) in H;
        rewrite is_Datacenter_datacenter_call in H; discriminate H
    end.

(** C8. A delete that returns an error (from the datacenter lookup, the
    machine lookup, the power-off or its wait, the destroy or its wait)
    leaves the resource data, and so the identity, as they were. A delete
    that returns nil has made the six calls, all answered without error, and
    has set the identity to the empty string. Delete always returns. *)
Theorem delete_identity P d :
  ∃ r s', invoke (resourceVSphereVirtualMachineDelete P) d = (Returned r, s') ∧
    match r with
    | Some _ => rd s' = d
    | None =>
        rd s' = SetId d EmptyString ∧
        ∃ dc vm off destroy,
          datacenter_answer P d = inr dc ∧
          on_VirtualMachine P dc (GetString d "name") = inr vm ∧
          on_PowerOff P vm = inr off ∧ on_Wait P off = None ∧
          on_Destroy P vm = inr destroy ∧ on_Wait P destroy = None ∧
          calls s' = [datacenter_call d; call_VirtualMachine dc (GetString d "name");
                      call_PowerOff vm; call_Wait off; call_Destroy vm; call_Wait destroy]
    end.
Proof.
  unfold invoke, resourceVSphereVirtualMachineDelete. run.
  repeat (case_answer; run); try (do 2 eexists; split; [reflexivity|]; done).
  do 2 eexists. split; [reflexivity|]. split; [done|].
  eexists _, _, _, _. done.
Qed.

(** C5. Whenever delete submits the destroy task, it has before that
    submitted the power-off task and waited for it, in this order and both
    without error; and when the power-off is refused, or the wait for it
    fails, no destroy is submitted. *)
Theorem delete_power_off_before_destroy P d :
  let s' := (invoke (resourceVSphereVirtualMachineDelete P) d).2 in
  (∀ vm, call_Destroy vm ∈ calls s' →
     ∃ dc off,
       on_PowerOff P vm = inr off ∧ on_Wait P off = None ∧
       take 5 (calls s') =
         [datacenter_call d; call_VirtualMachine dc (GetString d "name");
          call_PowerOff vm; call_Wait off; call_Destroy vm]) ∧
  (∀ vm, call_PowerOff vm ∈ calls s' →
     (∀ off, on_PowerOff P vm = inr off → on_Wait P off ≠ None) →
     ∀ vm', call_Destroy vm' ∉ calls s').
Proof.
  unfold invoke, resourceVSphereVirtualMachineDelete. run.
  repeat (case_answer; run); split.
  all: try (intros vm Hin; elems; simplify_eq; by eauto).
  all: intros vm Hin Hfail vm' Hin'; elems; simplify_eq.
  all: by eapply Hfail.
Qed.

Lemma delete_power_off_before_destroy_witness :
  (∃ dc off,
     on_PowerOff (stub (address_after 0) 0) "vm:vm1" = inr off ∧
     on_Wait (stub (address_after 0) 0) off = None ∧
     take 5 (calls (invoke (resourceVSphereVirtualMachineDelete (stub (address_after 0) 0)) vm1).2) =
       [datacenter_call vm1; call_VirtualMachine dc (GetString vm1 "name");
        call_PowerOff "vm:vm1"; call_Wait off; call_Destroy "vm:vm1"]) ∧
  (∀ vm', call_Destroy vm' ∉
          calls (invoke (resourceVSphereVirtualMachineDelete stub_power_off_fails) vm1).2).
Proof.
  split.
  - apply (delete_power_off_before_destroy (stub (address_after 0) 0) vm1).
    vm_compute. set_solver.
  - apply (proj2 (delete_power_off_before_destroy stub_power_off_fails vm1) "vm:vm1").
    + vm_compute. set_solver.
    + intros off Hoff. vm_compute in Hoff. simplify_eq. vm_compute. discriminate.
Defined.

(** ** Read: the machine is found *)

Lemma GetString_eq d key s : Get d key = VString s → GetString d key = s.
Proof. unfold GetString. by intros ->. Qed.

Lemma GetInt_Set_ne d key key' v : key ≠ key' → GetInt (Set' d key v) key' = GetInt d key'.
Proof. intros H. unfold GetInt. by rewrite Get_Set_ne. Qed.

Lemma count_app p l l' : count p (l ++ l') = (count p l + count p l')%nat.
Proof. induction l as [|c l IH]; simpl; [done|]. rewrite IH. lia. Qed.

Lemma is_RetrieveOne_datacenter_call d : is_RetrieveOne (datacenter_call d) = false.
Proof. unfold datacenter_call. by destruct (GetOk d "datacenter").2. Qed.

(** A read that finds the machine fetches the summary once, writes the
    memory, resolves the address and writes it. *)
Lemma read_found_run P fuel s dc vm :
  datacenter_answer P (rd s) = inr dc →
  on_VirtualMachine P dc (GetString (rd s) "name") = inr vm →
  resourceVSphereVirtualMachineRead P fuel s =
  let mvm :=
    match on_RetrieveOne P (count is_RetrieveOne (calls s)) vm with
    | inl _ => mo.zero
    | inr loaded => loaded
    end in
  match
    resolveAddress P fuel vm mvm
      (mkState (Set' (rd s) "memory" (VInt (mo.MemorySizeMB mvm)))
         (calls s ++ [datacenter_call (rd s);
                      call_VirtualMachine dc (GetString (rd s) "name"); call_RetrieveOne vm]))
  with
  | (Returned ip_address, s') => (Returned None, mkState (with_address (rd s') ip_address) (calls s'))
  | (Panicked, s') => (Panicked, s')
  | (OutOfFuel, s') => (OutOfFuel, s')
  end.
Proof.
  intros Hdc Hvm. unfold resourceVSphereVirtualMachineRead.
  run. rewrite Hdc. run. rewrite Hvm. run.
  rewrite !count_app. simpl. rewrite is_RetrieveOne_datacenter_call, !Nat.add_0_r.
  rewrite <- !app_assoc. simpl.
  destruct (on_RetrieveOne P _ vm); run;
    rewrite Set_Datacenter, (Set_rejected _ "cpu") by reflexivity; reflexivity.
Qed.

Lemma read_found P d fuel dc vm :
  datacenter_answer P d = inr dc →
  on_VirtualMachine P dc (GetString d "name") = inr vm →
  invoke (resourceVSphereVirtualMachineRead P fuel) d =
  match
    resolveAddress P fuel vm (first_summary P vm)
      (mkState (Set' d "memory" (VInt (mo.MemorySizeMB (first_summary P vm))))
         [datacenter_call d; call_VirtualMachine dc (GetString d "name"); call_RetrieveOne vm])
  with
  | (Returned ip_address, s') => (Returned None, mkState (with_address (rd s') ip_address) (calls s'))
  | (Panicked, s') => (Panicked, s')
  | (OutOfFuel, s') => (OutOfFuel, s')
  end.
Proof. intros Hdc Hvm. unfold invoke. by rewrite (read_found_run P fuel _ dc vm). Qed.

(** The only error a read returns is the one of its datacenter lookup, and
    it returns it right after that lookup. *)
Lemma read_error_run P fuel s err s' :
  resourceVSphereVirtualMachineRead P fuel s = (Returned (Some err), s') →
  datacenter_answer P (rd s) = inl err ∧
  s' = mkState (rd s) (calls s ++ [datacenter_call (rd s)]).
Proof.
  destruct (datacenter_answer P (rd s)) as [e|dc] eqn:Hdc.
  - unfold resourceVSphereVirtualMachineRead. run. rewrite Hdc. run.
    intros [= <- <-]. done.
  - destruct (on_VirtualMachine P dc (GetString (rd s) "name")) as [e|vm] eqn:Hvm.
    + unfold resourceVSphereVirtualMachineRead. run. rewrite Hdc. run. rewrite Hvm. run.
      discriminate.
    + rewrite (read_found_run P fuel s dc vm Hdc Hvm). simpl.
      destruct (resolveAddress P fuel vm _ _) as [[?| |] ?]; discriminate.
Qed.

(** ** The address of the first interface *)

Lemma resolveAddress_static P fuel vm mvm s ip :
  Get (rd s) "network_interface.0.ip_address" = VString ip →
  ip ≠ EmptyString →
  resolveAddress P fuel vm mvm s = (Returned ip, s).
Proof.
  intros Hip Hne. apply GetString_eq in Hip.
  unfold resolveAddress. run. rewrite Hip.
  unfold value_neq. rewrite bool_decide_eq_true_2 by congruence.
  reflexivity.
Qed.

Lemma resolveAddress_spent P fuel vm mvm s BootTime :
  Get (rd s) "network_interface.0.ip_address" = VString EmptyString →
  mo.BootTime mvm = Some BootTime →
  boot_delay_left P (rd s) BootTime = false →
  resolveAddress P fuel vm mvm s = (Returned (mo.IpAddress mvm), s).
Proof.
  intros Hip Hboot Hspent. apply GetString_eq in Hip.
  unfold resolveAddress. run. rewrite Hip.
  unfold value_neq. rewrite bool_decide_eq_false_2 by (intros H; by apply H).
  rewrite Hboot. run.
  change (float64_lt _ _) with (boot_delay_left P (rd s) BootTime).
  by rewrite Hspent.
Qed.

Lemma resolveAddress_wait P fuel vm mvm s BootTime :
  Get (rd s) "network_interface.0.ip_address" = VString EmptyString →
  mo.BootTime mvm = Some BootTime →
  boot_delay_left P (rd s) BootTime = true →
  resolveAddress P fuel vm mvm s =
  let refreshed :=
    match on_RetrieveOne P (count is_RetrieveOne (calls s)) vm with
    | inl _ => mvm
    | inr loaded => loaded
    end in
  match
    poll P fuel vm refreshed (mo.IpAddress refreshed)
      (mkState (rd s)
         (calls s ++
          [call_Sleep (boot_delay_sleep P (rd s) BootTime);
           call_RetrieveOne vm]))
  with
  | (Returned (mvm, _), s') => (Returned (mo.IpAddress mvm), s')
  | (Panicked, s') => (Panicked, s')
  | (OutOfFuel, s') => (OutOfFuel, s')
  end.
Proof.
  intros Hip Hboot Hleft. apply GetString_eq in Hip.
  unfold resolveAddress. run. rewrite Hip.
  unfold value_neq. rewrite bool_decide_eq_false_2 by (intros H; by apply H).
  rewrite Hboot. run.
  change (float64_lt _ _) with (boot_delay_left P (rd s) BootTime).
  rewrite Hleft. run.
  change (wrap64 _) with (boot_delay_sleep P (rd s) BootTime).
  rewrite count_app. simpl. rewrite Nat.add_0_r, <- app_assoc. simpl.
  destruct (on_RetrieveOne P _ vm); simpl;
    destruct (poll P fuel vm _ _ _) as [[[? ?]| |] ?]; reflexivity.
Qed.

(** The loop stops at once on an address. *)
Lemma poll_done P fuel vm mvm ip s :
  ip ≠ EmptyString → poll P fuel vm mvm ip s = (Returned (mvm, ip), s).
Proof. intros H. destruct fuel; simpl; by rewrite bool_decide_eq_false_2. Qed.

(** One round on an empty address: a retrieval, a second of sleep, and the
    loop again on what was retrieved. *)
Lemma poll_retry P fuel vm mvm s :
  poll P (S fuel) vm mvm EmptyString s =
  let retrieved :=
    match on_RetrieveOne P (count is_RetrieveOne (calls s)) vm with
    | inl _ => mvm
    | inr loaded => loaded
    end in
  poll P fuel vm retrieved (mo.IpAddress retrieved)
    (mkState (rd s) (calls s ++ poll_round vm)).
Proof.
  simpl. run. change (wrap64 (1 * Second)) with Second.
  destruct (on_RetrieveOne P _ vm); simpl; by rewrite <- app_assoc.
Qed.

(** The loop has no bound: as long as no address comes it goes on, whatever
    the fuel. *)
Lemma poll_without_address P vm :
  (∀ n, ∃ m, on_RetrieveOne P n vm = inr m ∧ mo.IpAddress m = EmptyString) →
  ∀ fuel mvm s, (poll P fuel vm mvm EmptyString s).1 = OutOfFuel.
Proof.
  intros Hempty fuel. induction fuel as [|fuel IH]; intros mvm s; [done|].
  rewrite poll_retry. simpl.
  destruct (Hempty (count is_RetrieveOne (calls s))) as (m & -> & ->). apply IH.
Qed.

(** Without a boot time there is nothing to dereference at line 349: the
    read panics. This is the case of the zero summary, which a failed first
    retrieval leaves. *)
Lemma resolveAddress_no_boot_time P fuel vm mvm s :
  Get (rd s) "network_interface.0.ip_address" = VString EmptyString →
  mo.BootTime mvm = None →
  resolveAddress P fuel vm mvm s = (Panicked, s).
Proof.
  intros Hip Hboot. apply GetString_eq in Hip.
  unfold resolveAddress. run. rewrite Hip.
  unfold value_neq. rewrite bool_decide_eq_false_2 by (intros H; by apply H).
  by rewrite Hboot.
Qed.

(** After [k] retrievals without an address and one with an address, the
    loop returns that address; it needs [k + 1] rounds. *)
Lemma poll_until_address P vm found :
  mo.IpAddress found ≠ EmptyString →
  ∀ k fuel mvm s,
    (∀ i, (i < k)%nat →
       ∃ m, on_RetrieveOne P (count is_RetrieveOne (calls s) + i) vm = inr m ∧
            mo.IpAddress m = EmptyString) →
    on_RetrieveOne P (count is_RetrieveOne (calls s) + k) vm = inr found →
    (k < fuel)%nat →
    poll P fuel vm mvm EmptyString s =
    (Returned (found, mo.IpAddress found),
     mkState (rd s) (calls s ++ concat (replicate (S k) (poll_round vm)))).
Proof.
  intros Hfound k. induction k as [|k IH]; intros fuel mvm s Hempty Hlast Hfuel.
  - destruct fuel as [|fuel]; [lia|]. rewrite poll_retry. simpl.
    rewrite Nat.add_0_r in Hlast. rewrite Hlast.
    rewrite poll_done by done. reflexivity.
  - destruct fuel as [|fuel]; [lia|]. rewrite poll_retry. simpl.
    destruct (Hempty 0%nat) as (m & Hm & Hip); [lia|].
    rewrite Nat.add_0_r in Hm. rewrite Hm, Hip.
    rewrite (IH fuel m); simpl.
    + by rewrite <- !app_assoc.
    + intros i Hi. destruct (Hempty (S i)) as (m' & Hm' & Hip'); [lia|].
      exists m'. split; [|done]. rewrite <- Hm'. f_equal.
      rewrite count_app. simpl. lia.
    + rewrite <- Hlast. f_equal. rewrite count_app. simpl. lia.
    + lia.
Qed.

Lemma Get_with_address d ip : Get (with_address d ip) "ip_address" = VString ip.
Proof.
  unfold with_address.
  change (Get (SetConnInfo ?d' _) ?k) with (Get d' k).
  by apply (Get_Set_string _ _ EmptyString).
Qed.

Lemma remaining_boot_delay_memory P d v BootTime :
  remaining_boot_delay P (Set' d "memory" v) BootTime = remaining_boot_delay P d BootTime.
Proof. unfold remaining_boot_delay. by rewrite GetInt_Set_ne. Qed.

Lemma boot_delay_left_memory P d v BootTime :
  boot_delay_left P (Set' d "memory" v) BootTime = boot_delay_left P d BootTime.
Proof. unfold boot_delay_left. by rewrite remaining_boot_delay_memory. Qed.

Lemma boot_delay_sleep_memory P d v BootTime :
  boot_delay_sleep P (Set' d "memory" v) BootTime = boot_delay_sleep P d BootTime.
Proof. unfold boot_delay_sleep. by rewrite remaining_boot_delay_memory. Qed.

Lemma first_summary_loaded P vm mvm :
  on_RetrieveOne P 0 vm = inr mvm → first_summary P vm = mvm.
Proof. unfold first_summary. by intros ->. Qed.

Lemma first_summary_failed P vm err :
  on_RetrieveOne P 0 vm = inl err → first_summary P vm = mo.zero.
Proof. unfold first_summary. by intros ->. Qed.

Lemma count_poll_rounds vm k :
  count is_RetrieveOne (concat (replicate k (poll_round vm))) = k.
Proof. induction k as [|k IH]; simpl; [done|]. by rewrite IH. Qed.

(** C7. When the first interface has a static address, resolving the
    address returns it without a call, whatever the fuel, the summary and the
    state; and the whole read returns nil after the two lookups and the one
    retrieval of the summary that every read of a machine makes for the
    memory: no sleep, no second retrieval. The address written is the static
    one. *)
Theorem read_static_ip_no_polling P d fuel dc vm ip :
  datacenter_answer P d = inr dc →
  on_VirtualMachine P dc (GetString d "name") = inr vm →
  Get d "network_interface.0.ip_address" = VString ip →
  ip ≠ EmptyString →
  (∀ mvm s, rd s = d → resolveAddress P fuel vm mvm s = (Returned ip, s)) ∧
  ∃ s', invoke (resourceVSphereVirtualMachineRead P fuel) d = (Returned None, s') ∧
        Get (rd s') "ip_address" = VString ip ∧
        connInfo (rd s') = {[ "host" := ip ]} ∧
        calls s' = [datacenter_call d; call_VirtualMachine dc (GetString d "name");
                    call_RetrieveOne vm] ∧
        count is_Sleep (calls s') = 0%nat.
Proof.
  intros Hdc Hvm Hip Hne. split.
  - intros mvm s <-. by apply resolveAddress_static.
  - rewrite (read_found P d fuel dc vm Hdc Hvm).
    rewrite (resolveAddress_static _ _ _ _ _ ip); [|simpl; by rewrite Get_Set_ne|done].
    eexists. split; [reflexivity|]. simpl.
    rewrite Get_with_address. repeat split; try done.
    by destruct (datacenter_call d) eqn:E; try done;
      pose proof (is_Datacenter_datacenter_call d) as H; rewrite E in H.
Qed.

Lemma read_static_ip_no_polling_witness :
  ∃ s', invoke (resourceVSphereVirtualMachineRead (stub no_summary 0) 0) vm1_static
        = (Returned None, s') ∧
        Get (rd s') "ip_address" = VString "10.0.0.9" ∧
        connInfo (rd s') = {[ "host" := "10.0.0.9" ]} ∧
        calls s' = [datacenter_call vm1_static;
                    call_VirtualMachine "dc1" (GetString vm1_static "name");
                    call_RetrieveOne "vm:vm1"] ∧
        count is_Sleep (calls s') = 0%nat.
Proof.
  apply (read_static_ip_no_polling (stub no_summary 0) vm1_static 0%nat "dc1" "vm:vm1"
           "10.0.0.9"); vm_compute; done.
Defined.

(** C1, as the code has it. When the first interface has no static address
    and no boot delay is left (the float64 [remaining_boot_delay] of line
    354 is not greater than zero), the read makes no further call: it
    returns nil with the guest address of the summary it fetched at the
    start, empty or not, after the two lookups and that one retrieval. *)
Theorem read_spent_budget_uses_fetched_summary P d fuel dc vm mvm BootTime :
  datacenter_answer P d = inr dc →
  on_VirtualMachine P dc (GetString d "name") = inr vm →
  Get d "network_interface.0.ip_address" = VString EmptyString →
  on_RetrieveOne P 0 vm = inr mvm →
  mo.BootTime mvm = Some BootTime →
  boot_delay_left P d BootTime = false →
  ∃ s', invoke (resourceVSphereVirtualMachineRead P fuel) d = (Returned None, s') ∧
        Get (rd s') "ip_address" = VString (mo.IpAddress mvm) ∧
        connInfo (rd s') = {[ "host" := mo.IpAddress mvm ]} ∧
        calls s' = [datacenter_call d; call_VirtualMachine dc (GetString d "name");
                    call_RetrieveOne vm].
Proof.
  intros Hdc Hvm Hip Hmvm Hboot Hspent.
  rewrite (read_found P d fuel dc vm Hdc Hvm), (first_summary_loaded _ _ _ Hmvm).
  rewrite (resolveAddress_spent _ _ _ _ _ BootTime);
    [|simpl; by rewrite Get_Set_ne|done|simpl; by rewrite boot_delay_left_memory].
  eexists. split; [reflexivity|]. simpl. by rewrite Get_with_address.
Qed.

Lemma read_spent_budget_uses_fetched_summary_witness :
  ∃ s', invoke (resourceVSphereVirtualMachineRead (stub (address_after 0) 60000000000) 0)
          vm1_no_delay = (Returned None, s') ∧
        Get (rd s') "ip_address" = VString "10.0.0.5" ∧
        connInfo (rd s') = {[ "host" := "10.0.0.5" ]} ∧
        calls s' = [datacenter_call vm1_no_delay;
                    call_VirtualMachine "dc1" (GetString vm1_no_delay "name");
                    call_RetrieveOne "vm:vm1"].
Proof.
  apply (read_spent_budget_uses_fetched_summary (stub (address_after 0) 60000000000)
           vm1_no_delay 0%nat "dc1" "vm:vm1" (running "10.0.0.5") 0); vm_compute; done.
Defined.

(** C1 as stated fails. No boot delay, a machine booted a minute ago, and a
    collector that has no address at the first retrieval and one from the
    second on: the read returns after the first retrieval, with an empty
    address. *)
Lemma spent_budget_goes_polling_false :
  (let s' := (invoke (resourceVSphereVirtualMachineRead (stub (address_after 1) 60000000000) 5)
                vm1_no_delay).2 in
   GetInt vm1_no_delay "boot_delay" = 0 ∧
   on_Since (stub (address_after 1) 60000000000) 0 = 60 * Second ∧
   Seconds (60 * Second) = float64_of_int 60 ∧
   remaining_boot_delay (stub (address_after 1) 60000000000) vm1_no_delay 0
   = float64_of_int (-60) ∧
   count is_RetrieveOne (calls s') = 1%nat ∧
   Get (rd s') "ip_address" = VString EmptyString ∧
   address_after 1 1 = inr (running "10.0.0.5")) ∧
  ¬ spent_budget_goes_polling.
Proof.
  split; [by vm_compute|].
  intros H.
  destruct (read_spent_budget_uses_fetched_summary (stub (address_after 1) 60000000000)
              vm1_no_delay 5%nat "dc1" "vm:vm1" (running EmptyString) 0)
    as (s' & Hread & Hip & _); try (vm_compute; done).
  by eapply (H (stub (address_after 1) 60000000000) vm1_no_delay 5%nat "dc1" "vm:vm1"
            (running EmptyString) 0 s'); try (vm_compute; done).
Qed.

(** ** Read: polling for the guest address *)

(** C4. The first interface is on DHCP and some boot delay is left (the
    float64 [remaining_boot_delay] of line 354 is greater than zero). After
    the sleep for that delay the read retrieves the summary again, and then
    once more after every retrieval that shows no address, sleeping a second
    after each retrieval of the loop. If the first [k] retrievals after the
    wait show no address and the next one shows one, the read returns nil
    with that address, having made exactly [k + 1] retrievals after the wait;
    [k] rounds of the loop are enough. *)
Theorem read_polls_until_address P d fuel dc vm mvm BootTime k found :
  datacenter_answer P d = inr dc →
  on_VirtualMachine P dc (GetString d "name") = inr vm →
  Get d "network_interface.0.ip_address" = VString EmptyString →
  on_RetrieveOne P 0 vm = inr mvm →
  mo.BootTime mvm = Some BootTime →
  boot_delay_left P d BootTime = true →
  (∀ i, (1 ≤ i ≤ k)%nat →
     ∃ m, on_RetrieveOne P i vm = inr m ∧ mo.IpAddress m = EmptyString) →
  on_RetrieveOne P (S k) vm = inr found →
  mo.IpAddress found ≠ EmptyString →
  (k ≤ fuel)%nat →
  ∃ s', invoke (resourceVSphereVirtualMachineRead P fuel) d = (Returned None, s') ∧
        Get (rd s') "ip_address" = VString (mo.IpAddress found) ∧
        calls s' =
          [datacenter_call d; call_VirtualMachine dc (GetString d "name");
           call_RetrieveOne vm;
           call_Sleep (boot_delay_sleep P d BootTime);
           call_RetrieveOne vm]
          ++ concat (replicate k (poll_round vm)) ∧
        count is_RetrieveOne (drop 4 (calls s')) = S k.
Proof.
  intros Hdc Hvm Hip Hmvm Hboot Hleft Hempty Hfound Hne Hfuel.
  rewrite (read_found P d fuel dc vm Hdc Hvm), (first_summary_loaded _ _ _ Hmvm).
  rewrite (resolveAddress_wait _ _ _ _ _ BootTime);
    [|simpl; by rewrite Get_Set_ne|done|simpl; by rewrite boot_delay_left_memory].
  simpl. rewrite is_RetrieveOne_datacenter_call, boot_delay_sleep_memory. simpl.
  destruct k as [|k].
  - rewrite Hfound, poll_done by done.
    eexists. split; [reflexivity|]. simpl. by rewrite Get_with_address.
  - destruct (Hempty 1%nat) as (m & Hm & Hm_ip); [lia|]. rewrite Hm, Hm_ip.
    rewrite (poll_until_address P vm found Hne k); simpl;
      rewrite ?is_RetrieveOne_datacenter_call; simpl.
    + eexists. split; [reflexivity|]. simpl. rewrite Get_with_address.
      split; [done|]. split; [done|]. by rewrite count_poll_rounds.
    + intros i Hi. apply Hempty. lia.
    + by rewrite <- Hfound; f_equal; lia.
    + lia.
Qed.

Lemma read_polls_until_address_witness :
  ∃ s', invoke (resourceVSphereVirtualMachineRead (stub (address_after 3) 10000000000) 2) vm1
        = (Returned None, s') ∧
        Get (rd s') "ip_address" = VString (mo.IpAddress (running "10.0.0.5")) ∧
        calls s' =
          [datacenter_call vm1; call_VirtualMachine "dc1" (GetString vm1 "name");
           call_RetrieveOne "vm:vm1";
           call_Sleep (boot_delay_sleep (stub (address_after 3) 10000000000) vm1 0);
           call_RetrieveOne "vm:vm1"]
          ++ concat (replicate 2 (poll_round "vm:vm1")) ∧
        count is_RetrieveOne (drop 4 (calls s')) = 3%nat.
Proof.
  apply (read_polls_until_address (stub (address_after 3) 10000000000) vm1 2%nat "dc1" "vm:vm1"
           (running EmptyString) 0 2%nat (running "10.0.0.5")); try (vm_compute; done).
  intros i Hi. exists (running EmptyString). split; [|done].
  destruct i as [|[|[|i]]]; try lia; reflexivity.
Defined.

(** ** Read: the errors of the retrievals *)


(** On DHCP, a first retrieval that fails makes the read panic: it returns
    nothing, error or not. *)
Lemma read_failed_retrieval_dhcp_panics P d fuel dc vm err :
  datacenter_answer P d = inr dc →
  on_VirtualMachine P dc (GetString d "name") = inr vm →
  Get d "network_interface.0.ip_address" = VString EmptyString →
  on_RetrieveOne P 0 vm = inl err →
  (invoke (resourceVSphereVirtualMachineRead P fuel) d).1 = Panicked.
Proof.
  intros Hdc Hvm Hip Hfail.
  rewrite (read_found P d fuel dc vm Hdc Hvm), (first_summary_failed _ _ _ Hfail).
  rewrite resolveAddress_no_boot_time; [done|simpl; by rewrite Get_Set_ne|done].
Qed.


(** ** Create *)

Lemma readonly_ret {A} (a : A) : readonly (mret a : M A).
Proof. by intros s. Qed.

Lemma readonly_panic {A} : readonly (panic : M A).
Proof. by intros s. Qed.

Lemma readonly_bind {A B} (m : M A) (k : A → M B) :
  readonly m → (∀ a, readonly (k a)) → readonly (m ≫= k).
Proof.
  intros Hm Hk s. specialize (Hm s). unfold mbind, M_bind.
  destruct (m s) as [[a| |] s1]; simpl in *; subst; [apply Hk|done|done].
Qed.

Lemma readonly_d_Get key : readonly (d_Get key).
Proof. by intros s. Qed.

Lemma readonly_d_GetOk key : readonly (d_GetOk key).
Proof. by intros s. Qed.

Lemma readonly_as_string v : readonly (as_string v).
Proof. by destruct v; intros ?. Qed.

Lemma readonly_as_int v : readonly (as_int v).
Proof. by destruct v; intros ?. Qed.

Lemma readonly_make {A} n (zero : A) : readonly (make n zero).
Proof. unfold make. by case_bool_decide; intros s. Qed.

(** Goes through an action made of reads only. *)
Ltac readonly :=
  repeat first
    [ apply readonly_ret | apply readonly_panic | apply readonly_d_Get
    | apply readonly_d_GetOk | apply readonly_as_string | apply readonly_as_int
    | apply readonly_make
    | apply readonly_bind; [|intros ?]
    | match goal with
      | |- readonly (if ?b then _ else _) => destruct b
      | |- readonly (match ?x with inl _ => _ | inr _ => _ end) => destruct x
      | |- readonly (let '(_, _) := ?x in _) => destruct x
      end ].

Lemma readonly_optional_string key : readonly (optional_string key).
Proof. unfold optional_string. readonly. Qed.

Lemma readonly_for_range {St} (body : nat → St → M St) :
  (∀ i st, readonly (body i st)) →
  ∀ count from st, readonly (for_range from count body st).
Proof.
  intros Hbody count. induction count as [|count IH]; intros from st; simpl.
  - apply readonly_ret.
  - apply readonly_bind; [apply Hbody|]. intros st'. apply IH.
Qed.

Lemma readonly_for_range_err {St} (body : nat → St → M (error + St)) :
  (∀ i st, readonly (body i st)) →
  ∀ count from st, readonly (for_range_err from count body st).
Proof.
  intros Hbody count. induction count as [|count IH]; intros from st; simpl.
  - apply readonly_ret.
  - apply readonly_bind; [apply Hbody|]. intros [err|st']; [apply readonly_ret|apply IH].
Qed.

Lemma readonly_append_item list_name i items : readonly (append_item list_name i items).
Proof. unfold append_item. readonly. Qed.

Lemma readonly_network_body i networks : readonly (network_body i networks).
Proof. unfold network_body. readonly. Qed.

Lemma readonly_disk_body i st : readonly (disk_body i st).
Proof. unfold disk_body. destruct st as [[template datastore] disks]. readonly. Qed.

Lemma readonly_buildVirtualMachine : readonly buildVirtualMachine.
Proof.
  unfold buildVirtualMachine.
  repeat first
    [ apply readonly_optional_string
    | apply readonly_for_range; intros; first [apply readonly_append_item | apply readonly_network_body]
    | apply readonly_for_range_err; intros; apply readonly_disk_body
    | progress readonly ].
Qed.

Lemma bind_returned {A B} (m : M A) (k : A → M B) s b s' :
  (m ≫= k) s = (Returned b, s') →
  ∃ a s1, m s = (Returned a, s1) ∧ k a s1 = (Returned b, s').
Proof.
  unfold mbind, M_bind. destruct (m s) as [[a| |] s1]; intros H; [eauto|done|done].
Qed.

(** The machine create builds carries the name of the resource. *)
Lemma buildVirtualMachine_name s vm s' :
  buildVirtualMachine s = (Returned (inr vm), s') →
  virtualMachine.name vm = GetString (rd s) "name".
Proof.
  intros H. unfold buildVirtualMachine in H.
  apply bind_returned in H as (name & s1 & Hname & H).
  assert (name = GetString (rd s) "name") as ->.
  { unfold mbind, M_bind in Hname.
    rewrite (d_Get_string "name" EmptyString) in Hname by reflexivity.
    simpl in Hname. rewrite run_ret in Hname. congruence. }
  repeat (apply bind_returned in H as (? & ? & _ & H)).
  match type of H with
  | match ?r with _ => _ end _ = _ => destruct r as [err|[[template datastore] disks]]
  end; simpl in H; [discriminate|].
  injection H as <- _. reflexivity.
Qed.

Lemma provision_run P vm s :
  (if bool_decide (virtualMachine.template vm ≠ EmptyString)
   then vm_deployVirtualMachine P vm else vm_createVirtualMachine P vm) s
  = (Returned (provision_answer P vm), mkState (rd s) (calls s ++ [provision_call vm])).
Proof. unfold provision_answer, provision_call. by case_bool_decide. Qed.

(** *** The keys of the disks *)

Lemma is_digit_pretty_N_char x : is_digit (pretty_N_char x) = true.
Proof. unfold pretty_N_char. by repeat case_match. Qed.

Lemma all_digits_pretty_N_go x s : all_digits s = true → all_digits (pretty_N_go x s) = true.
Proof.
  revert s. induction (N.lt_wf_0 x) as [x _ IH]; intros s Hs.
  assert (x = 0 ∨ 0 < x)%N as [->|?] by lia.
  - by rewrite pretty_N_go_0.
  - rewrite pretty_N_go_step by done. apply IH.
    { by apply N.div_lt. }
    simpl. by rewrite is_digit_pretty_N_char.
Qed.

Lemma all_digits_pretty (i : nat) : all_digits (pretty i) = true.
Proof.
  unfold pretty, pretty_nat, pretty, pretty_N. case_decide; [done|].
  by apply all_digits_pretty_N_go.
Qed.

Lemma append_cons a s t : String a s +:+ t = String a (s +:+ t).
Proof. reflexivity. Qed.

Lemma append_nil t : EmptyString +:+ t = t.
Proof. reflexivity. Qed.

Lemma append_nil_r s : s +:+ EmptyString = s.
Proof. induction s as [|a s IH]; [done|]. by rewrite append_cons, IH. Qed.

Lemma append_assoc_char cur c x : (cur +:+ String c EmptyString) +:+ x = cur +:+ String c x.
Proof. induction cur as [|a cur IH]; [done|]. by rewrite !append_cons, IH. Qed.

(** An index is one part of an address. *)
Lemma split_addr_digits x :
  all_digits x = true →
  ∀ cur rest,
    split_addr cur (x +:+ String "." rest) = (cur +:+ x) :: split_addr EmptyString rest.
Proof.
  induction x as [|c x IH]; intros Hx cur rest.
  - rewrite append_nil, append_nil_r. simpl. done.
  - simpl in Hx. apply andb_prop in Hx as [Hc Hx].
    rewrite append_cons. simpl.
    destruct (Ascii.eqb_spec c ".") as [->|_]; [done|].
    rewrite IH by done. by rewrite append_assoc_char.
Qed.

Lemma digits_not_count x : all_digits x = true → String.eqb x "#" = false.
Proof.
  destruct x as [|c x]; [done|]. simpl. intros [Hc _]%andb_prop.
  destruct (Ascii.eqb_spec c "#") as [->|_]; [done|]. done.
Qed.

(** The attributes of every disk have the schema of those of the first. *)
Lemma schema_of_disk (i : nat) attr s :
  schema_of ("disk.0." +:+ attr) = Some s →
  schema_of (("disk." +:+ pretty i) +:+ String "." attr) = Some s.
Proof.
  unfold schema_of. rewrite !append_cons, !append_nil. simpl.
  rewrite split_addr_digits by apply all_digits_pretty. simpl.
  rewrite digits_not_count by apply all_digits_pretty. done.
Qed.

(** An int is not the empty string. *)
Lemma value_neq_int_string n s : value_neq (VInt n) (VString s) = true.
Proof. unfold value_neq. by apply bool_decide_eq_true_2. Qed.

Ltac run_Get_disk :=
  match goal with
  | |- context [d_Get ?key ?s] =>
      first [ rewrite (d_Get_string key EmptyString s) by (apply schema_of_disk; reflexivity)
            | rewrite (d_Get_int key s) by (apply schema_of_disk; reflexivity) ]
  end.

(** The loop over the disks never returns an error: [d.Get] of a size is an
    int, and the comparison of lines 265 and 275 holds for every int. *)
Lemma disk_body_accepts i st s err s' : disk_body i st s ≠ (Returned (inl err), s').
Proof.
  destruct st as [[template datastore] disks]. unfold disk_body.
  repeat first
    [ run_Get_disk
    | rewrite value_neq_int_string
    | progress (unfold mbind, mret, M_bind, M_ret; cbn)
    | case_bool_decide
    | match goal with
      | |- context [value_neq (VString ?a) ?b] => destruct (value_neq (VString a) b) eqn:?
      end ];
  discriminate.
Qed.

Lemma for_range_err_accepts {St} (body : nat → St → M (error + St)) :
  (∀ i st s err s', body i st s ≠ (Returned (inl err), s')) →
  ∀ count from st s err s', for_range_err from count body st s ≠ (Returned (inl err), s').
Proof.
  intros Hbody count. induction count as [|count IH]; intros from st s err s' H; simpl in H.
  - discriminate.
  - apply bind_returned in H as ([e|st'] & s1 & Hstep & H).
    + by apply Hbody in Hstep.
    + by apply IH in H.
Qed.

Lemma buildVirtualMachine_accepts s err s' :
  buildVirtualMachine s ≠ (Returned (inl err), s').
Proof.
  intros H. unfold buildVirtualMachine in H.
  repeat (apply bind_returned in H as (? & ? & ? & H)).
  match type of H with
  | match ?r with _ => _ end _ = _ => destruct r as [e|[[template datastore] disks]]
  end; simpl in H.
  - match goal with
    | Hloop : for_range_err _ _ _ _ _ = _ |- _ =>
        by apply (for_range_err_accepts disk_body disk_body_accepts) in Hloop
    end.
  - discriminate.
Qed.

(** X11. No create returns an error before it has made its provisioning call:
    the two errors about a missing size (lines 268 and 278) are never
    returned, whatever the resource data. *)
Lemma create_error_needs_a_call P d fuel err s' :
  invoke (resourceVSphereVirtualMachineCreate P fuel) d = (Returned (Some err), s') →
  ∃ vm, head (calls s') = Some (provision_call vm).
Proof.
  unfold invoke, resourceVSphereVirtualMachineCreate. intros H.
  apply bind_returned in H as (r & s1 & Hbuild & H).
  destruct r as [e|vm]; [by apply buildVirtualMachine_accepts in Hbuild|].
  pose proof (readonly_buildVirtualMachine (mkState d [])) as Hro.
  rewrite Hbuild in Hro. simpl in Hro. subst s1.
  apply bind_returned in H as (perr & s2 & Hprov & H).
  rewrite provision_run in Hprov. injection Hprov as <- <-. simpl in H.
  exists vm. destruct (provision_answer P vm) as [e|].
  { by injection H as <- <-. }
  apply bind_returned in H as ([] & s3 & Hid & H).
  injection Hid as <-. simpl in H.
  by apply read_error_run in H as [_ ->].
Qed.

(** C3, as the code has it. A create that returns an error has either
    called nothing (a disk without size) or has only made the provisioning
    call, which failed; in both cases the resource data, and so the identity,
    are as they were. Or the provisioning succeeded, the identity was set to
    the name of the machine, and the error is the one of the datacenter
    lookup of the read that ends the create: the identity is then that
    name. *)
Theorem create_error_identity P d fuel err s' :
  invoke (resourceVSphereVirtualMachineCreate P fuel) d = (Returned (Some err), s') →
  (calls s' = [] ∧ rd s' = d) ∨
  (∃ vm e, calls s' = [provision_call vm] ∧ provision_answer P vm = Some e ∧
           err = "error: " +:+ e ∧ rd s' = d) ∨
  (∃ vm, calls s' = [provision_call vm; datacenter_call d] ∧
         provision_answer P vm = None ∧ datacenter_answer P d = inl err ∧
         rd s' = SetId d (GetString d "name")).
Proof.
  unfold invoke, resourceVSphereVirtualMachineCreate. intros H.
  apply bind_returned in H as (r & s1 & Hbuild & H).
  pose proof (readonly_buildVirtualMachine (mkState d [])) as Hro.
  rewrite Hbuild in Hro. simpl in Hro. subst s1.
  destruct r as [e|vm].
  { injection H as <- <-. by left. }
  apply buildVirtualMachine_name in Hbuild. simpl in Hbuild.
  apply bind_returned in H as (perr & s2 & Hprov & H).
  rewrite provision_run in Hprov. injection Hprov as <- <-. simpl in H.
  destruct (provision_answer P vm) as [e|] eqn:Hanswer.
  { injection H as <- <-. right; left. by exists vm, e. }
  apply bind_returned in H as ([] & s3 & Hid & H).
  injection Hid as <-. simpl in H.
  apply read_error_run in H as [Hdc ->]. simpl in *.
  right; right. exists vm. by rewrite Hbuild.
Qed.

Lemma create_error_identity_witness :
  (calls (invoke (resourceVSphereVirtualMachineCreate stub_create_fails 0) vm1).2 = [] ∧
   rd (invoke (resourceVSphereVirtualMachineCreate stub_create_fails 0) vm1).2 = vm1) ∨
  (∃ vm e,
     calls (invoke (resourceVSphereVirtualMachineCreate stub_create_fails 0) vm1).2
     = [provision_call vm] ∧
     provision_answer stub_create_fails vm = Some e ∧
     "error: create failed" = "error: " +:+ e ∧
     rd (invoke (resourceVSphereVirtualMachineCreate stub_create_fails 0) vm1).2 = vm1) ∨
  (∃ vm,
     calls (invoke (resourceVSphereVirtualMachineCreate stub_create_fails 0) vm1).2
     = [provision_call vm; datacenter_call vm1] ∧
     provision_answer stub_create_fails vm = None ∧
     datacenter_answer stub_create_fails vm1 = inl "error: create failed" ∧
     rd (invoke (resourceVSphereVirtualMachineCreate stub_create_fails 0) vm1).2
     = SetId vm1 (GetString vm1 "name")).
Proof.
  apply (create_error_identity stub_create_fails vm1 0%nat "error: create failed").
  vm_compute. reflexivity.
Defined.

(** C3 as stated fails. The creation succeeds and the datacenter lookup of
    the read that follows fails: create returns that error, and the identity
    is the name of the machine. *)
Lemma failed_create_leaves_no_identity_false :
  (id vm1 = EmptyString ∧
   (invoke (resourceVSphereVirtualMachineCreate stub_no_datacenter 0) vm1).1
   = Returned (Some "datacenter not found") ∧
   id (rd (invoke (resourceVSphereVirtualMachineCreate stub_no_datacenter 0) vm1).2) = "vm1") ∧
  ¬ failed_create_leaves_no_identity.
Proof.
  split; [by vm_compute|]. intros H.
  specialize (H stub_no_datacenter vm1 0%nat "datacenter not found"
                (invoke (resourceVSphereVirtualMachineCreate stub_no_datacenter 0) vm1).2).
  assert (id (rd (invoke (resourceVSphereVirtualMachineCreate stub_no_datacenter 0) vm1).2)
          = EmptyString) as Hid.
  { apply H; by vm_compute. }
  vm_compute in Hid. discriminate.
Qed.

(** C2 fails on the code. The first disk of [vm1_no_size] has neither a
    template nor a size, and create does not reject it: [d.Get] of the size
    is the int 0, which as an [interface{}] differs from the empty string, so
    the size is taken to be there. Create submits the creation of a machine
    with a disk of size 0, sets the identity and returns nil. *)
Theorem create_without_size_is_not_rejected :
  Get vm1_no_size "disk.0.template" = VString EmptyString ∧
  attrs vm1_no_size !! "disk.0.size" = None ∧
  Get vm1_no_size "disk.0.size" = VInt 0 ∧
  value_neq (VInt 0) (VString EmptyString) = true ∧
  (invoke (resourceVSphereVirtualMachineCreate (stub (address_after 0) 0) 0) vm1_no_size).1
  = Returned None ∧
  calls (invoke (resourceVSphereVirtualMachineCreate (stub (address_after 0) 0) 0) vm1_no_size).2
  = [call_createVirtualMachine vm1_no_size_machine; call_DefaultDatacenter;
     call_VirtualMachine "dc1" "vm1"; call_RetrieveOne "vm:vm1"] ∧
  id (rd (invoke (resourceVSphereVirtualMachineCreate (stub (address_after 0) 0) 0)
            vm1_no_size).2) = "vm1" ∧
  ¬ missing_size_is_rejected.
Proof.
  repeat (split; [by vm_compute|]).
  intros H.
  destruct (H (stub (address_after 0) 0) vm1_no_size 0%nat) as (err & s' & Hrun & _);
    [by vm_compute..|].
  apply (f_equal fst) in Hrun. vm_compute in Hrun. discriminate.
Qed.

(** ** More of create and read

    *** The keys of the interfaces and of the DNS lists *)

Lemma split_addr_last x :
  all_digits x = true → ∀ cur, split_addr cur x = [cur +:+ x].
Proof.
  induction x as [|c x IH]; intros Hx cur.
  - by rewrite append_nil_r.
  - simpl in Hx. apply andb_prop in Hx as [Hc Hx]. simpl.
    destruct (Ascii.eqb_spec c ".") as [->|_]; [done|].
    rewrite IH by done. by rewrite append_assoc_char.
Qed.

Lemma schema_of_network (i : nat) attr s :
  schema_of ("network_interface.0." +:+ attr) = Some s →
  schema_of (("network_interface." +:+ pretty i) +:+ String "." attr) = Some s.
Proof.
  unfold schema_of. rewrite !append_cons, !append_nil. simpl.
  rewrite split_addr_digits by apply all_digits_pretty. simpl.
  rewrite digits_not_count by apply all_digits_pretty. done.
Qed.

Lemma schema_of_dns_suffix (i : nat) :
  schema_of ("dns_suffix" +:+ "." +:+ pretty i) = Some (SchemaString EmptyString).
Proof.
  unfold schema_of. rewrite !append_cons, !append_nil. simpl.
  rewrite split_addr_last by apply all_digits_pretty. simpl.
  rewrite digits_not_count by apply all_digits_pretty. done.
Qed.

Lemma schema_of_dns_server (i : nat) :
  schema_of ("dns_server" +:+ "." +:+ pretty i) = Some (SchemaString EmptyString).
Proof.
  unfold schema_of. rewrite !append_cons, !append_nil. simpl.
  rewrite split_addr_last by apply all_digits_pretty. simpl.
  rewrite digits_not_count by apply all_digits_pretty. done.
Qed.

Ltac run_Get_index :=
  match goal with
  | |- context [d_Get ?key ?s] =>
      first [ rewrite (d_Get_string key EmptyString s)
                by first [ apply schema_of_disk; reflexivity
                         | apply schema_of_network; reflexivity
                         | apply schema_of_dns_suffix | apply schema_of_dns_server ]
            | rewrite (d_Get_int key s) by (apply schema_of_disk; reflexivity) ]
  end.

Lemma value_neq_string_nil x : value_neq (VString x) VNil = true.
Proof. unfold value_neq. by apply bool_decide_eq_true_2. Qed.

Lemma network_body_run i networks s :
  network_body i networks s = (Returned (alter (λ _, network_of (rd s) i) i networks), s).
Proof.
  unfold network_body.
  repeat first [ run_Get_index | rewrite value_neq_string_nil
               | progress (unfold mbind, mret, M_bind, M_ret; cbn) ].
  rewrite list_alter_alter_eq. reflexivity.
Qed.

(** A loop that fills the slots of a slice one by one. *)
Lemma for_range_fill {A} (body : nat → list A → M (list A)) (f : nat → A) (zero : A) s :
  (∀ i l, body i l s = (Returned (alter (λ _, f i) i l), s)) →
  ∀ count pre,
    for_range (length pre) count body (pre ++ replicate count zero) s
    = (Returned (pre ++ (f <$> seq (length pre) count)), s).
Proof.
  intros Hbody count. induction count as [|count IH]; intros pre; simpl.
  - reflexivity.
  - unfold mbind, M_bind. rewrite Hbody.
    rewrite <- (Nat.add_0_r (length pre)) at 2. rewrite alter_app_r. simpl.
    rewrite (cons_middle (f (length pre))), app_assoc.
    replace (S (length pre)) with (length (pre ++ [f (length pre)]))
      by (rewrite length_app; simpl; lia).
    rewrite IH. by rewrite <- app_assoc.
Qed.

Lemma network_loop_run n s :
  for_range 0 n network_body (replicate n networkInterface.zero) s
  = (Returned (network_of (rd s) <$> seq 0 n), s).
Proof.
  apply (for_range_fill network_body (network_of (rd s)) networkInterface.zero s
           (λ i l, network_body_run i l s) n []).
Qed.

Lemma append_item_run list_name i items s :
  schema_of (list_name +:+ "." +:+ pretty i) = Some (SchemaString EmptyString) →
  append_item list_name i items s
  = (Returned (items ++ [GetString (rd s) (list_name +:+ "." +:+ pretty i)]), s).
Proof.
  intros H. unfold append_item. unfold mbind, M_bind.
  rewrite (d_Get_string _ EmptyString) by done. reflexivity.
Qed.

Lemma items_loop_run list_name s :
  (∀ i : nat, schema_of (list_name +:+ "." +:+ pretty i) = Some (SchemaString EmptyString)) →
  ∀ count from items,
    for_range from count (append_item list_name) items s
    = (Returned (items ++ ((λ i, GetString (rd s) (list_name +:+ "." +:+ pretty i))
                           <$> seq from count)), s).
Proof.
  intros Hschema count. induction count as [|count IH]; intros from items; simpl.
  - by rewrite app_nil_r.
  - unfold mbind, M_bind. rewrite append_item_run by done.
    rewrite IH. by rewrite <- app_assoc.
Qed.

Lemma value_neq_string a b : value_neq (VString a) (VString b) = bool_decide (a ≠ b).
Proof. unfold value_neq. apply bool_decide_ext. split; congruence. Qed.

Lemma disk_body_run i template datastore disks s :
  disk_body i (template, datastore, disks) s =
  let prefix := "disk." +:+ pretty i in
  let from_template :=
    bool_decide (i = 0%nat ∧ GetString (rd s) (prefix +:+ ".template") ≠ EmptyString) in
  (Returned
     (inr (if from_template then GetString (rd s) (prefix +:+ ".template") else template,
           if bool_decide (i = 0%nat ∧ GetString (rd s) (prefix +:+ ".datastore") ≠ EmptyString)
           then GetString (rd s) (prefix +:+ ".datastore") else datastore,
           alter (λ h, hardDisk.mk
                         (if from_template then hardDisk.size h
                          else GetInt (rd s) (prefix +:+ ".size"))
                         (GetInt (rd s) (prefix +:+ ".iops"))) i disks)),
   s).
Proof.
  unfold disk_body.
  repeat first
    [ run_Get_index
    | rewrite value_neq_int_string
    | rewrite value_neq_string
    | progress (unfold mbind, mret, M_bind, M_ret; cbn)
    | case_bool_decide ];
  try (exfalso; tauto);
  unfold set_size, set_iops; rewrite ?list_alter_alter_eq; reflexivity.
Qed.

Lemma disk_body_tail i template datastore disks s :
  i ≠ 0%nat →
  disk_body i (template, datastore, disks) s
  = (Returned (inr (template, datastore, alter (λ _, disk_of (rd s) i) i disks)), s).
Proof.
  intros Hi. rewrite disk_body_run. cbv zeta. unfold disk_of.
  rewrite !bool_decide_eq_false_2 by tauto. reflexivity.
Qed.

Lemma for_range_err_S {St} from count (body : nat → St → M (error + St)) st s :
  for_range_err from (S count) body st s =
  match body from st s with
  | (Returned (inl err), s') => (Returned (inl err), s')
  | (Returned (inr st'), s') => for_range_err (S from) count body st' s'
  | (Panicked, s') => (Panicked, s')
  | (OutOfFuel, s') => (OutOfFuel, s')
  end.
Proof.
  simpl. unfold mbind, M_bind. by destruct (body from st s) as [[[?|?]| |] ?].
Qed.

Lemma disk_loop_tail s template datastore :
  ∀ count pre,
    (0 < length pre)%nat →
    for_range_err (length pre) count disk_body
      (template, datastore, pre ++ replicate count hardDisk.zero) s
    = (Returned (inr (template, datastore, pre ++ (disk_of (rd s) <$> seq (length pre) count))),
       s).
Proof.
  intros count. induction count as [|count IH]; intros pre Hpre.
  - reflexivity.
  - rewrite for_range_err_S, disk_body_tail by lia. rewrite replicate_S.
    rewrite <- (Nat.add_0_r (length pre)) at 2. rewrite alter_app_r. simpl.
    rewrite (cons_middle (disk_of (rd s) (length pre))), app_assoc.
    replace (S (length pre)) with (length (pre ++ [disk_of (rd s) (length pre)]))
      by (rewrite length_app; simpl; lia).
    rewrite IH by (rewrite length_app; simpl; lia). by rewrite <- app_assoc.
Qed.

Lemma first_slot_string (x : string) :
  (if bool_decide (0%nat = 0%nat ∧ x ≠ EmptyString) then x else EmptyString) = x.
Proof.
  case_bool_decide as H; [done|].
  destruct (decide (x = EmptyString)) as [->|]; [done|tauto].
Qed.

Lemma disk_loop_run n s :
  for_range_err 0 n disk_body (EmptyString, EmptyString, replicate n hardDisk.zero) s
  = (Returned (inr (first_disk_string (rd s) "template" n,
                    first_disk_string (rd s) "datastore" n,
                    disk_of (rd s) <$> seq 0 n)), s).
Proof.
  destruct n as [|n]; [reflexivity|].
  rewrite for_range_err_S, disk_body_run. cbv zeta. rewrite replicate_S. simpl.
  change (("disk." +:+ pretty 0%nat) +:+ ".template") with "disk.0.template".
  change (("disk." +:+ pretty 0%nat) +:+ ".datastore") with "disk.0.datastore".
  match goal with
  | |- for_range_err 1 n disk_body (?t, ?ds, ?x :: _) s = _ =>
      pose proof (disk_loop_tail s t ds n [x]) as Hloop
  end.
  simpl in Hloop. rewrite Hloop by lia. clear Hloop.
  rewrite !first_slot_string. reflexivity.
Qed.

Lemma optional_string_run key default s :
  schema_of key = Some (SchemaString default) →
  optional_string key s = (Returned (GetString (rd s) key), s).
Proof.
  intros H. unfold optional_string, d_GetOk, GetOk, get_state, mbind, M_bind, mret, M_ret.
  rewrite (Get_string _ _ _ H). simpl.
  case_bool_decide as Hz; simpl; [by rewrite Hz|done].
Qed.

Ltac run_build :=
  repeat first
    [ run_Get
    | rewrite (optional_string_run _ EmptyString) by reflexivity
    | rewrite (optional_string_run "domain" "vsphere.local") by reflexivity
    | rewrite (optional_string_run "time_zone" "Etc/UTC") by reflexivity
    | rewrite (items_loop_run "dns_suffix" _ schema_of_dns_suffix)
    | rewrite (items_loop_run "dns_server" _ schema_of_dns_server)
    | rewrite network_loop_run
    | rewrite disk_loop_run
    | rewrite (bool_decide_eq_false_2 (_ < 0)) by lia
    | rewrite (bool_decide_eq_true_2 (_ < 0)) by lia
    | progress (unfold mbind, mret, M_bind, M_ret; cbn)
    | case_bool_decide ].

Lemma buildVirtualMachine_run s :
  0 ≤ GetInt (rd s) "network_interface.#" →
  0 ≤ GetInt (rd s) "disk.#" →
  buildVirtualMachine s = (Returned (inr (machine_of (rd s))), s).
Proof.
  intros Hn Hd. unfold buildVirtualMachine, make, machine_of, items_of.
  run_build; reflexivity.
Qed.

Lemma buildVirtualMachine_panics s :
  GetInt (rd s) "network_interface.#" < 0 ∨ GetInt (rd s) "disk.#" < 0 →
  buildVirtualMachine s = (Panicked, s).
Proof.
  intros Hneg. unfold buildVirtualMachine, make.
  destruct (decide (GetInt (rd s) "network_interface.#" < 0));
    [|assert (GetInt (rd s) "disk.#" < 0) by tauto]; run_build; reflexivity.
Qed.

Lemma buildVirtualMachine_returns s r s' :
  buildVirtualMachine s = (Returned r, s') →
  r = inr (machine_of (rd s)) ∧ s' = s ∧
  0 ≤ GetInt (rd s) "network_interface.#" ∧ 0 ≤ GetInt (rd s) "disk.#".
Proof.
  intros H.
  destruct (decide (0 ≤ GetInt (rd s) "network_interface.#")) as [Hn|Hn];
    [destruct (decide (0 ≤ GetInt (rd s) "disk.#")) as [Hd|Hd]|].
  - rewrite buildVirtualMachine_run in H by done. by injection H as <- <-.
  - rewrite buildVirtualMachine_panics in H by lia. discriminate.
  - rewrite buildVirtualMachine_panics in H by lia. discriminate.
Qed.

Lemma reads_only_refl s : reads_only s s.
Proof. split; [done|]. exists []. by rewrite app_nil_r. Qed.

Lemma reads_only_trans s1 s2 s3 : reads_only s1 s2 → reads_only s2 s3 → reads_only s1 s3.
Proof.
  intros [Hrd1 (l1 & Hl1 & Hf1)] [Hrd2 (l2 & Hl2 & Hf2)]. split; [congruence|].
  exists (l1 ++ l2). rewrite Hl2, Hl1, app_assoc. split; [done|]. by apply Forall_app.
Qed.

Lemma reads_only_calls s l :
  Forall (λ c, is_read_call c = true) l → reads_only s (mkState (rd s) (calls s ++ l)).
Proof. intros H. split; [done|]. by exists l. Qed.

Lemma poll_reads_only P fuel vm : ∀ mvm ip s, reads_only s (poll P fuel vm mvm ip s).2.
Proof.
  induction fuel as [|fuel IH]; intros mvm ip s.
  - simpl. case_bool_decide; apply reads_only_refl.
  - destruct (decide (ip = EmptyString)) as [->|Hip].
    + rewrite poll_retry. cbv zeta.
      eapply reads_only_trans; [|apply IH].
      apply reads_only_calls. by repeat constructor.
    + rewrite poll_done by done. apply reads_only_refl.
Qed.

Lemma Get_first_address d :
  Get d "network_interface.0.ip_address"
  = VString (GetString d "network_interface.0.ip_address").
Proof. by apply (Get_string _ _ EmptyString). Qed.

Lemma resolveAddress_reads_only P fuel vm mvm s :
  reads_only s (resolveAddress P fuel vm mvm s).2.
Proof.
  pose proof (Get_first_address (rd s)) as Hip.
  destruct (decide (GetString (rd s) "network_interface.0.ip_address" = EmptyString))
    as [Hempty|Hstatic].
  - rewrite Hempty in Hip. destruct (mo.BootTime mvm) as [BootTime|] eqn:Hboot.
    + destruct (boot_delay_left P (rd s) BootTime) eqn:Hleft.
      * rewrite (resolveAddress_wait _ _ _ _ _ BootTime) by done. cbv zeta.
        match goal with
        | |- context [poll P fuel vm ?m ?ip ?s0] =>
            pose proof (poll_reads_only P fuel vm m ip s0) as Hpoll;
            destruct (poll P fuel vm m ip s0) as [[[? ?]| |] ?]
        end; simpl in *;
          (eapply reads_only_trans; [|exact Hpoll]);
          apply reads_only_calls; by repeat constructor.
      * rewrite (resolveAddress_spent _ _ _ _ _ BootTime) by done.
        apply reads_only_refl.
    + rewrite resolveAddress_no_boot_time by done. apply reads_only_refl.
  - rewrite (resolveAddress_static _ _ _ _ _ _ Hip Hstatic). apply reads_only_refl.
Qed.

Lemma read_datacenter_fails_run P fuel s err :
  datacenter_answer P (rd s) = inl err →
  resourceVSphereVirtualMachineRead P fuel s
  = (Returned (Some err), mkState (rd s) (calls s ++ [datacenter_call (rd s)])).
Proof.
  intros Hdc. unfold resourceVSphereVirtualMachineRead. run. rewrite Hdc. reflexivity.
Qed.

Lemma read_vm_not_found_state P fuel s dc err :
  datacenter_answer P (rd s) = inr dc →
  on_VirtualMachine P dc (GetString (rd s) "name") = inl err →
  resourceVSphereVirtualMachineRead P fuel s
  = (Returned None,
     mkState (SetId (rd s) EmptyString)
       (calls s ++ [datacenter_call (rd s); call_VirtualMachine dc (GetString (rd s) "name")])).
Proof.
  intros Hdc Hvm. unfold resourceVSphereVirtualMachineRead.
  run. rewrite Hdc. run. rewrite Hvm. run. by rewrite <- app_assoc.
Qed.

(** X1. A read whose datacenter lookup fails returns that error after this
    one call, and leaves the resource data, identity included, as they
    were. *)
Theorem read_datacenter_not_found P d fuel err :
  datacenter_answer P d = inl err →
  invoke (resourceVSphereVirtualMachineRead P fuel) d
  = (Returned (Some err), mkState d [datacenter_call d]).
Proof. intros Hdc. unfold invoke. by rewrite (read_datacenter_fails_run P fuel _ err). Qed.

Lemma read_datacenter_not_found_witness :
  invoke (resourceVSphereVirtualMachineRead stub_no_datacenter 0) vm1
  = (Returned (Some "datacenter not found"), mkState vm1 [datacenter_call vm1]).
Proof.
  apply (read_datacenter_not_found stub_no_datacenter vm1 0%nat "datacenter not found").
  vm_compute. reflexivity.
Defined.

Lemma Get_SetConnInfo d v key : Get (SetConnInfo d v) key = Get d key.
Proof. reflexivity. Qed.

Lemma Get_with_address_ne d ip key :
  key ≠ "ip_address" → Get (with_address d ip) key = Get d key.
Proof. intros H. unfold with_address. by rewrite Get_SetConnInfo, Get_Set_ne. Qed.

Lemma id_with_address d ip : id (with_address d ip) = id d.
Proof. unfold with_address. simpl. by rewrite ?id_Set. Qed.

(** What a read of a found machine leaves in the resource data when it returns. *)
Lemma read_found_returns P fuel s dc vm r s' :
  datacenter_answer P (rd s) = inr dc →
  on_VirtualMachine P dc (GetString (rd s) "name") = inr vm →
  resourceVSphereVirtualMachineRead P fuel s = (Returned r, s') →
  r = None ∧
  ∃ mvm ip,
    mvm = match on_RetrieveOne P (count is_RetrieveOne (calls s)) vm with
          | inl _ => mo.zero | inr loaded => loaded end ∧
    rd s' = with_address (Set' (rd s) "memory" (VInt (mo.MemorySizeMB mvm))) ip.
Proof.
  intros Hdc Hvm. rewrite (read_found_run P fuel s dc vm Hdc Hvm). cbv zeta.
  match goal with
  | |- context [resolveAddress P fuel vm ?m ?s0] =>
      pose proof (resolveAddress_reads_only P fuel vm m s0) as [Hrd _];
      destruct (resolveAddress P fuel vm m s0) as [[ip| |] s1]
  end; intros H; [|discriminate..].
  injection H as <- <-. split; [done|]. eexists _, ip. split; [reflexivity|].
  simpl in *. by rewrite Hrd.
Qed.

(** X2. A read that finds the machine and returns, returns nil. It has
    written the same address to [ip_address] and to the host of the
    connection info, and to [memory] the memory of the summary of its first
    retrieval (the zero summary if that failed), also when it has refreshed
    the summary since. It has kept the identity and every other attribute,
    [vcpu] included. *)
Theorem read_found_snapshot P d fuel dc vm r :
  datacenter_answer P d = inr dc →
  on_VirtualMachine P dc (GetString d "name") = inr vm →
  (invoke (resourceVSphereVirtualMachineRead P fuel) d).1 = Returned r →
  let d' := rd (invoke (resourceVSphereVirtualMachineRead P fuel) d).2 in
  r = None ∧
  (∃ ip, Get d' "ip_address" = VString ip ∧ connInfo d' = {[ "host" := ip ]}) ∧
  Get d' "memory" = VInt (mo.MemorySizeMB (first_summary P vm)) ∧
  id d' = id d ∧
  ∀ key, key ≠ "memory" → key ≠ "ip_address" → Get d' key = Get d key.
Proof.
  intros Hdc Hvm Hread.
  destruct (invoke (resourceVSphereVirtualMachineRead P fuel) d) as [o s'] eqn:Hrun.
  simpl in Hread. subst o.
  apply (read_found_returns P fuel _ dc vm) in Hrun as (-> & mvm & ip & -> & Hrd); [|done..].
  simpl. rewrite Hrd. split; [done|]. split; [|split; [|split]].
  - exists ip. by rewrite Get_with_address.
  - rewrite Get_with_address_ne by done. by apply Get_Set_int.
  - by rewrite id_with_address, id_Set.
  - intros key Hmem Hip. by rewrite Get_with_address_ne, Get_Set_ne.
Qed.

Lemma read_found_snapshot_witness :
  let d' := rd (invoke (resourceVSphereVirtualMachineRead (stub (address_after 3) 10000000000) 2)
                  vm1).2 in
  (None : option error) = None ∧
  (∃ ip, Get d' "ip_address" = VString ip ∧ connInfo d' = {[ "host" := ip ]}) ∧
  Get d' "memory"
  = VInt (mo.MemorySizeMB (first_summary (stub (address_after 3) 10000000000) "vm:vm1")) ∧
  id d' = id vm1 ∧
  ∀ key, key ≠ "memory" → key ≠ "ip_address" → Get d' key = Get vm1 key.
Proof.
  apply (read_found_snapshot (stub (address_after 3) 10000000000) vm1 2%nat "dc1" "vm:vm1");
    vm_compute; reflexivity.
Defined.

Lemma is_read_call_datacenter_call d : is_read_call (datacenter_call d) = true.
Proof. unfold datacenter_call. by destruct (GetOk d "datacenter").2. Qed.

(** X3. Whatever its outcome, a read only looks up, retrieves and sleeps:
    it submits no task and provisions nothing. *)
Theorem read_makes_only_read_calls P d fuel :
  Forall (λ c, is_read_call c = true)
    (calls (invoke (resourceVSphereVirtualMachineRead P fuel) d).2).
Proof.
  unfold invoke.
  destruct (datacenter_answer P d) as [err|dc] eqn:Hdc.
  { rewrite (read_datacenter_fails_run P fuel _ err) by done. simpl.
    repeat constructor. apply is_read_call_datacenter_call. }
  destruct (on_VirtualMachine P dc (GetString d "name")) as [err|vm] eqn:Hvm.
  { rewrite (read_vm_not_found_state P fuel _ dc err) by done. simpl.
    repeat constructor. apply is_read_call_datacenter_call. }
  rewrite (read_found_run P fuel _ dc vm) by done. cbv zeta.
  match goal with
  | |- context [resolveAddress P fuel vm ?m ?s0] =>
      pose proof (resolveAddress_reads_only P fuel vm m s0) as (_ & l & Hl & Hforall);
      destruct (resolveAddress P fuel vm m s0) as [[ip| |] s1]
  end; simpl in *; rewrite Hl;
    repeat (apply Forall_cons; split; [done || apply is_read_call_datacenter_call|]); done.
Qed.

(** As long as no address comes the loop goes on, from any state. *)
Lemma poll_runs_on P vm :
  ∀ fuel mvm s,
    (∀ n, (count is_RetrieveOne (calls s) ≤ n)%nat →
          ∃ m, on_RetrieveOne P n vm = inr m ∧ mo.IpAddress m = EmptyString) →
    (poll P fuel vm mvm EmptyString s).1 = OutOfFuel.
Proof.
  intros fuel. induction fuel as [|fuel IH]; intros mvm s Hempty; [done|].
  rewrite poll_retry. cbv zeta.
  destruct (Hempty (count is_RetrieveOne (calls s))) as (m & -> & ->); [done|].
  apply IH. simpl. intros n Hn. apply Hempty.
  rewrite count_app in Hn. simpl in Hn. lia.
Qed.

(** X4. On DHCP with some boot delay left (the float64
    [remaining_boot_delay] of line 354 is greater than zero), a read against
    a collector that never shows an address does not return, however long it
    is left to run: the loop has no bound. *)
Theorem read_without_address_never_returns P d dc vm mvm BootTime :
  datacenter_answer P d = inr dc →
  on_VirtualMachine P dc (GetString d "name") = inr vm →
  Get d "network_interface.0.ip_address" = VString EmptyString →
  on_RetrieveOne P 0 vm = inr mvm →
  mo.BootTime mvm = Some BootTime →
  boot_delay_left P d BootTime = true →
  (∀ n, (1 ≤ n)%nat → ∃ m, on_RetrieveOne P n vm = inr m ∧ mo.IpAddress m = EmptyString) →
  ∀ fuel, (invoke (resourceVSphereVirtualMachineRead P fuel) d).1 = OutOfFuel.
Proof.
  intros Hdc Hvm Hip Hmvm Hboot Hleft Hempty fuel.
  rewrite (read_found P d fuel dc vm Hdc Hvm), (first_summary_loaded _ _ _ Hmvm).
  rewrite (resolveAddress_wait _ _ _ _ _ BootTime);
    [|simpl; by rewrite Get_Set_ne|done|simpl; by rewrite boot_delay_left_memory].
  simpl. rewrite is_RetrieveOne_datacenter_call. simpl.
  destruct (Hempty 1%nat) as (m & -> & ->); [lia|].
  match goal with
  | |- context [poll P fuel vm ?m0 EmptyString ?s0] =>
      pose proof (poll_runs_on P vm fuel m0 s0) as Hpoll;
      destruct (poll P fuel vm m0 EmptyString s0) as [o s1]
  end.
  simpl in Hpoll. rewrite Hpoll; [done|].
  intros n Hn. apply Hempty. lia.
Qed.

Lemma read_without_address_never_returns_witness :
  (invoke (resourceVSphereVirtualMachineRead (stub (λ _, inr (running EmptyString)) 0) 25)
     vm1).1 = OutOfFuel.
Proof.
  apply (read_without_address_never_returns (stub (λ _, inr (running EmptyString)) 0) vm1
           "dc1" "vm:vm1" (running EmptyString) 0); try (vm_compute; done).
  intros n _. by exists (running EmptyString).
Defined.

(** A retrieval that fails leaves the summary without address as it is: the
    loop takes it like one that shows no address. *)
Lemma poll_through_failures P vm found :
  mo.IpAddress found ≠ EmptyString →
  ∀ k fuel mvm s,
    mo.IpAddress mvm = EmptyString →
    (∀ i, (i < k)%nat →
       (∃ err, on_RetrieveOne P (count is_RetrieveOne (calls s) + i) vm = inl err) ∨
       (∃ m, on_RetrieveOne P (count is_RetrieveOne (calls s) + i) vm = inr m ∧
             mo.IpAddress m = EmptyString)) →
    on_RetrieveOne P (count is_RetrieveOne (calls s) + k) vm = inr found →
    (k < fuel)%nat →
    poll P fuel vm mvm EmptyString s =
    (Returned (found, mo.IpAddress found),
     mkState (rd s) (calls s ++ concat (replicate (S k) (poll_round vm)))).
Proof.
  intros Hfound k. induction k as [|k IH]; intros fuel mvm s Hmvm Hempty Hlast Hfuel.
  - destruct fuel as [|fuel]; [lia|]. rewrite poll_retry. simpl.
    rewrite Nat.add_0_r in Hlast. rewrite Hlast.
    rewrite poll_done by done. reflexivity.
  - destruct fuel as [|fuel]; [lia|]. rewrite poll_retry. cbv zeta.
    assert (∃ m, match on_RetrieveOne P (count is_RetrieveOne (calls s)) vm with
                 | inl _ => mvm | inr loaded => loaded end = m
                 ∧ mo.IpAddress m = EmptyString) as (m & -> & Hm).
    { destruct (Hempty 0%nat) as [(err & Herr)|(m & Hm & Hip)]; [lia|..];
        rewrite Nat.add_0_r in *.
      - rewrite Herr. by exists mvm.
      - rewrite Hm. by exists m. }
    rewrite Hm. rewrite (IH fuel m); simpl.
    + by rewrite <- !app_assoc.
    + done.
    + intros i Hi. rewrite count_app. simpl.
      replace (count is_RetrieveOne (calls s) + 1 + i)%nat
        with (count is_RetrieveOne (calls s) + S i)%nat by lia.
      apply Hempty. lia.
    + rewrite <- Hlast. f_equal. rewrite count_app. simpl. lia.
    + lia.
Qed.

(** X5. In the polling, a retrieval that fails counts like one that shows
    no address. When some boot delay is left (the float64
    [remaining_boot_delay] of line 354 is greater than zero), the summary
    fetched first has no address, and after the wait [k] retrievals fail or
    show none and the next one shows one, the read returns nil with that
    address after [k + 2] retrievals and [k + 1] sleeps in all. *)
Theorem read_retries_failed_retrievals P d fuel dc vm mvm BootTime k found :
  datacenter_answer P d = inr dc →
  on_VirtualMachine P dc (GetString d "name") = inr vm →
  Get d "network_interface.0.ip_address" = VString EmptyString →
  on_RetrieveOne P 0 vm = inr mvm →
  mo.BootTime mvm = Some BootTime →
  mo.IpAddress mvm = EmptyString →
  boot_delay_left P d BootTime = true →
  (∀ i, (1 ≤ i ≤ k)%nat →
     (∃ err, on_RetrieveOne P i vm = inl err) ∨
     (∃ m, on_RetrieveOne P i vm = inr m ∧ mo.IpAddress m = EmptyString)) →
  on_RetrieveOne P (S k) vm = inr found →
  mo.IpAddress found ≠ EmptyString →
  (k ≤ fuel)%nat →
  (invoke (resourceVSphereVirtualMachineRead P fuel) d).1 = Returned None ∧
  let s' := (invoke (resourceVSphereVirtualMachineRead P fuel) d).2 in
  Get (rd s') "ip_address" = VString (mo.IpAddress found) ∧
  count is_RetrieveOne (calls s') = S (S k) ∧
  count is_Sleep (calls s') = S k.
Proof.
  intros Hdc Hvm Hip Hmvm Hboot Hnone Hleft Hempty Hfound Hne Hfuel.
  rewrite (read_found P d fuel dc vm Hdc Hvm), (first_summary_loaded _ _ _ Hmvm).
  rewrite (resolveAddress_wait _ _ _ _ _ BootTime);
    [|simpl; by rewrite Get_Set_ne|done|simpl; by rewrite boot_delay_left_memory].
  simpl. rewrite is_RetrieveOne_datacenter_call, boot_delay_sleep_memory. simpl.
  destruct k as [|k].
  - rewrite Hfound, poll_done by done. simpl. rewrite Get_with_address.
    rewrite is_RetrieveOne_datacenter_call.
    assert (is_Sleep (datacenter_call d) = false) as ->
      by (unfold datacenter_call; by destruct (GetOk d "datacenter").2).
    done.
  - assert (∃ m, match on_RetrieveOne P 1 vm with inl _ => mvm | inr loaded => loaded end = m
                 ∧ mo.IpAddress m = EmptyString) as (m & -> & Hm).
    { destruct (Hempty 1%nat) as [(err & Herr)|(m & Hm & Hm_ip)]; [lia|..].
      - rewrite Herr. by exists mvm.
      - rewrite Hm. by exists m. }
    rewrite Hm.
    rewrite (poll_through_failures P vm found Hne k); simpl;
      rewrite ?is_RetrieveOne_datacenter_call; simpl.
    + rewrite Get_with_address.
      assert (is_Sleep (datacenter_call d) = false) as ->
        by (unfold datacenter_call; by destruct (GetOk d "datacenter").2).
      split; [done|]. split; [done|].
      assert (∀ n, count is_RetrieveOne (concat (replicate n (poll_round vm))) = n
                   ∧ count is_Sleep (concat (replicate n (poll_round vm))) = n) as Hrounds.
      { intros n. induction n as [|n [IH1 IH2]]; simpl; [done|]. by rewrite IH1, IH2. }
      destruct (Hrounds k) as [-> ->]. done.
    + done.
    + intros i Hi. apply Hempty. lia.
    + by rewrite <- Hfound; f_equal; lia.
    + lia.
Qed.

Lemma read_retries_failed_retrievals_witness :
  (invoke (resourceVSphereVirtualMachineRead (stub (address_after_failures 2) 10000000000) 2)
     vm1).1 = Returned None ∧
  let s' := (invoke (resourceVSphereVirtualMachineRead
                       (stub (address_after_failures 2) 10000000000) 2) vm1).2 in
  Get (rd s') "ip_address" = VString (mo.IpAddress (running "10.0.0.5")) ∧
  count is_RetrieveOne (calls s') = 4%nat ∧
  count is_Sleep (calls s') = 3%nat.
Proof.
  apply (read_retries_failed_retrievals (stub (address_after_failures 2) 10000000000) vm1
           2%nat "dc1" "vm:vm1" (running EmptyString) 0 2%nat (running "10.0.0.5"));
    try (vm_compute; done).
  intros i Hi. left. exists "retrieve failed".
  destruct i as [|[|[|i]]]; try lia; reflexivity.
Defined.

(** X6. On DHCP, when the summary of the first retrieval has no boot time
    (a machine that is not running, or a retrieval that failed), the read
    panics on the nil pointer of line 349, after it has written the memory
    and before it writes an address. *)
Theorem read_without_boot_time_panics P d fuel dc vm :
  datacenter_answer P d = inr dc →
  on_VirtualMachine P dc (GetString d "name") = inr vm →
  Get d "network_interface.0.ip_address" = VString EmptyString →
  mo.BootTime (first_summary P vm) = None →
  invoke (resourceVSphereVirtualMachineRead P fuel) d
  = (Panicked,
     mkState (Set' d "memory" (VInt (mo.MemorySizeMB (first_summary P vm))))
       [datacenter_call d; call_VirtualMachine dc (GetString d "name"); call_RetrieveOne vm]).
Proof.
  intros Hdc Hvm Hip Hboot. rewrite (read_found P d fuel dc vm Hdc Hvm).
  by rewrite resolveAddress_no_boot_time; [|simpl; by rewrite Get_Set_ne|].
Qed.

Lemma read_without_boot_time_panics_witness :
  invoke (resourceVSphereVirtualMachineRead (stub (λ _, inr powered_off) 0) 3) vm1
  = (Panicked,
     mkState (Set' vm1 "memory"
                (VInt (mo.MemorySizeMB (first_summary (stub (λ _, inr powered_off) 0) "vm:vm1"))))
       [datacenter_call vm1; call_VirtualMachine "dc1" (GetString vm1 "name");
        call_RetrieveOne "vm:vm1"]).
Proof.
  apply (read_without_boot_time_panics (stub (λ _, inr powered_off) 0) vm1 3%nat "dc1" "vm:vm1");
    vm_compute; reflexivity.
Defined.

Lemma wrap64_small z : - 2 ^ 63 ≤ z < 2 ^ 63 → wrap64 z = z.
Proof. intros H. unfold wrap64. rewrite Z.mod_small; lia. Qed.

(** The integer part of a positive float is at most the float, and less
    than one below it. *)
Lemma float64_trunc_bounds f n :
  float64_lt float64_zero f = true →
  float64_trunc f = Some n →
  0 ≤ n ∧ (inject_Z n <= float64_value f)%Q ∧ (float64_value f < inject_Z n + 1)%Q.
Proof.
  destruct f as [s| | |[] m e]; try discriminate; intros _; simpl; intros [= <-].
  case_bool_decide as He.
  - assert (0 < 2 ^ e) by (apply Z.pow_pos_nonneg; lia).
    split; [lia|]. split; [apply Qle_refl|].
    rewrite <- (Qplus_0_r (inject_Z (Z.pos m * 2 ^ e))) at 1.
    by apply Qplus_lt_r.
  - assert (0 < 2 ^ (- e)) as Hpow by (apply Z.pow_pos_nonneg; lia).
    pose proof (Z.mul_div_le (Z.pos m) (2 ^ (- e)) Hpow).
    pose proof (Z.mul_succ_div_gt (Z.pos m) (2 ^ (- e)) Hpow).
    pose proof (Z.div_pos (Z.pos m) (2 ^ (- e))).
    split; [lia|].
    unfold Qle, Qlt, Qplus, inject_Z. simpl. rewrite Z2Pos.id by done. lia.
Qed.

(** X7. When some boot delay is left, the fourth call of the read is the
    sleep for it: the float64 [remaining_boot_delay] cut down to whole
    seconds, as long as that many seconds are a duration. With less than a
    second left the read sleeps for no time at all. *)
Theorem read_waits_whole_seconds P d fuel dc vm mvm BootTime seconds :
  datacenter_answer P d = inr dc →
  on_VirtualMachine P dc (GetString d "name") = inr vm →
  Get d "network_interface.0.ip_address" = VString EmptyString →
  on_RetrieveOne P 0 vm = inr mvm →
  mo.BootTime mvm = Some BootTime →
  boot_delay_left P d BootTime = true →
  float64_trunc (remaining_boot_delay P d BootTime) = Some seconds →
  seconds ≤ 9223372036 →
  calls (invoke (resourceVSphereVirtualMachineRead P fuel) d).2 !! 3%nat
  = Some (call_Sleep (seconds * Second)) ∧
  0 ≤ seconds ∧
  (inject_Z seconds <= float64_value (remaining_boot_delay P d BootTime))%Q ∧
  (float64_value (remaining_boot_delay P d BootTime) < inject_Z seconds + 1)%Q.
Proof.
  intros Hdc Hvm Hip Hmvm Hboot Hleft Htrunc Hsmall.
  destruct (float64_trunc_bounds _ _ Hleft Htrunc) as (Hpos & Hle & Hlt).
  split; [|done].
  rewrite (read_found P d fuel dc vm Hdc Hvm), (first_summary_loaded _ _ _ Hmvm).
  rewrite (resolveAddress_wait _ _ _ _ _ BootTime);
    [|simpl; by rewrite Get_Set_ne|done|simpl; by rewrite boot_delay_left_memory].
  cbv zeta. simpl rd. simpl calls. rewrite boot_delay_sleep_memory.
  unfold boot_delay_sleep, int_of_float64. rewrite Htrunc.
  rewrite bool_decide_eq_true_2 by lia.
  rewrite wrap64_small by (unfold Second; lia).
  match goal with
  | |- context [poll P fuel vm ?m ?ip ?s0] =>
      pose proof (poll_reads_only P fuel vm m ip s0) as (_ & l & Hl & _);
      destruct (poll P fuel vm m ip s0) as [[[? ?]| |] ?]
  end; simpl in *; by rewrite Hl.
Qed.

Lemma read_waits_whole_seconds_witness :
  calls (invoke (resourceVSphereVirtualMachineRead (stub (address_after 0) 29500000000) 0)
           vm1).2 !! 3%nat
  = Some (call_Sleep (0 * Second)) ∧
  0 ≤ 0 ∧
  (inject_Z 0
   <= float64_value (remaining_boot_delay (stub (address_after 0) 29500000000) vm1 0))%Q ∧
  (float64_value (remaining_boot_delay (stub (address_after 0) 29500000000) vm1 0)
   < inject_Z 0 + 1)%Q.
Proof.
  apply (read_waits_whole_seconds (stub (address_after 0) 29500000000) vm1 0%nat "dc1" "vm:vm1"
           (running "10.0.0.5") 0 0); vm_compute; done.
Defined.

(** The rounding of float64 shows in the test of line 356 and in the sleep
    of line 358, with [Seconds] for the clock. A machine with a boot delay
    of [2 ^ 25] seconds that booted a nanosecond less than that ago has no
    delay left: its read neither waits nor polls. Booted a nanosecond ago it
    sleeps for the whole [2 ^ 25] seconds. *)
Lemma boot_delay_is_rounded :
  let d := Set' vm1 "boot_delay" (VInt (2 ^ 25)) in
  GetInt d "boot_delay" = 2 ^ 25 ∧
  boot_delay_left (stub (address_after 1) (2 ^ 25 * Second - 1)) d 0 = false ∧
  calls (invoke (resourceVSphereVirtualMachineRead
                   (stub (address_after 1) (2 ^ 25 * Second - 1)) 5) d).2
  = [datacenter_call d; call_VirtualMachine "dc1" "vm1"; call_RetrieveOne "vm:vm1"] ∧
  boot_delay_left (stub (address_after 1) 1) d 0 = true ∧
  boot_delay_sleep (stub (address_after 1) 1) d 0 = 2 ^ 25 * Second.
Proof. by vm_compute. Qed.

Lemma Set_memory d n :
  Set' d "memory" (VInt n) = mkResourceData (<["memory" := VInt n]> (attrs d)) (id d) (connInfo d).
Proof. reflexivity. Qed.

Lemma Set_ip_address d ip :
  Set' d "ip_address" (VString ip)
  = mkResourceData (<["ip_address" := VString ip]> (attrs d)) (id d) (connInfo d).
Proof. reflexivity. Qed.

(** Writing the same memory and address a second time changes nothing. *)
Lemma snapshot_twice d n ip :
  with_address (Set' (with_address (Set' d "memory" (VInt n)) ip) "memory" (VInt n)) ip
  = with_address (Set' d "memory" (VInt n)) ip.
Proof.
  unfold with_address, SetConnInfo. rewrite !Set_memory, !Set_ip_address. simpl.
  f_equal.
  rewrite (insert_insert_ne _ "memory" "ip_address") by done.
  by rewrite insert_insert_eq, insert_insert_eq.
Qed.

Lemma datacenter_answer_snapshot P d n ip :
  datacenter_answer P (with_address (Set' d "memory" (VInt n)) ip) = datacenter_answer P d.
Proof.
  unfold datacenter_answer, GetOk, GetString.
  by rewrite Get_with_address_ne, Get_Set_ne.
Qed.

Lemma datacenter_call_snapshot d n ip :
  datacenter_call (with_address (Set' d "memory" (VInt n)) ip) = datacenter_call d.
Proof.
  unfold datacenter_call, GetOk, GetString.
  by rewrite Get_with_address_ne, Get_Set_ne.
Qed.

Lemma GetString_snapshot d n ip key :
  key ≠ "memory" → key ≠ "ip_address" →
  GetString (with_address (Set' d "memory" (VInt n)) ip) key = GetString d key.
Proof.
  intros. unfold GetString. by rewrite Get_with_address_ne, Get_Set_ne.
Qed.

(** X8. With a static address, a second read of the resource data that a
    first read left, against the same answers, makes the same calls and
    leaves the same resource data. *)
Theorem read_static_twice P d fuel dc vm ip :
  datacenter_answer P d = inr dc →
  on_VirtualMachine P dc (GetString d "name") = inr vm →
  Get d "network_interface.0.ip_address" = VString ip →
  ip ≠ EmptyString →
  let first := invoke (resourceVSphereVirtualMachineRead P fuel) d in
  first.1 = Returned None ∧
  invoke (resourceVSphereVirtualMachineRead P fuel) (rd first.2) = first.
Proof.
  intros Hdc Hvm Hip Hne.
  assert (∀ d0, datacenter_answer P d0 = inr dc →
                on_VirtualMachine P dc (GetString d0 "name") = inr vm →
                Get d0 "network_interface.0.ip_address" = VString ip →
                invoke (resourceVSphereVirtualMachineRead P fuel) d0
                = (Returned None,
                   mkState (with_address
                              (Set' d0 "memory" (VInt (mo.MemorySizeMB (first_summary P vm)))) ip)
                     [datacenter_call d0; call_VirtualMachine dc (GetString d0 "name");
                      call_RetrieveOne vm])) as Hrun.
  { intros d0 Hdc0 Hvm0 Hip0. rewrite (read_found P d0 fuel dc vm Hdc0 Hvm0).
    by rewrite (resolveAddress_static _ _ _ _ _ ip); [|simpl; by rewrite Get_Set_ne|]. }
  cbv zeta. rewrite (Hrun d Hdc Hvm Hip). simpl. split; [done|].
  rewrite Hrun.
  - rewrite snapshot_twice, datacenter_call_snapshot, GetString_snapshot by done. done.
  - by rewrite datacenter_answer_snapshot.
  - by rewrite GetString_snapshot.
  - by rewrite Get_with_address_ne, Get_Set_ne.
Qed.

Lemma read_static_twice_witness :
  let first := invoke (resourceVSphereVirtualMachineRead (stub (address_after 0) 0) 0)
                 vm1_static in
  first.1 = Returned None ∧
  invoke (resourceVSphereVirtualMachineRead (stub (address_after 0) 0) 0) (rd first.2) = first.
Proof.
  apply (read_static_twice (stub (address_after 0) 0) vm1_static 0%nat "dc1" "vm:vm1"
           "10.0.0.9"); vm_compute; done.
Defined.

Lemma read_extends P fuel s :
  ∃ l, calls (resourceVSphereVirtualMachineRead P fuel s).2 = calls s ++ l.
Proof.
  destruct (datacenter_answer P (rd s)) as [err|dc] eqn:Hdc.
  { rewrite (read_datacenter_fails_run P fuel _ err) by done. by eexists. }
  destruct (on_VirtualMachine P dc (GetString (rd s) "name")) as [err|vm] eqn:Hvm.
  { rewrite (read_vm_not_found_state P fuel _ dc err) by done. by eexists. }
  rewrite (read_found_run P fuel _ dc vm) by done. cbv zeta.
  match goal with
  | |- context [resolveAddress P fuel vm ?m ?s0] =>
      pose proof (resolveAddress_reads_only P fuel vm m s0) as (_ & l & Hl & _);
      destruct (resolveAddress P fuel vm m s0) as [[ip| |] s1]
  end; simpl in *; rewrite Hl, <- app_assoc; by eexists.
Qed.

Lemma create_run P d fuel :
  0 ≤ GetInt d "network_interface.#" →
  0 ≤ GetInt d "disk.#" →
  invoke (resourceVSphereVirtualMachineCreate P fuel) d =
  match provision_answer P (machine_of d) with
  | Some err =>
      (Returned (Some ("error: " +:+ err)), mkState d [provision_call (machine_of d)])
  | None =>
      resourceVSphereVirtualMachineRead P fuel
        (mkState (SetId d (GetString d "name")) [provision_call (machine_of d)])
  end.
Proof.
  intros Hn Hd. unfold invoke, resourceVSphereVirtualMachineCreate.
  unfold mbind at 1. unfold M_bind. rewrite buildVirtualMachine_run by done.
  unfold mbind at 1. unfold M_bind. rewrite provision_run. simpl.
  by destruct (provision_answer P (machine_of d)).
Qed.

Lemma create_panics P d fuel :
  GetInt d "network_interface.#" < 0 ∨ GetInt d "disk.#" < 0 →
  invoke (resourceVSphereVirtualMachineCreate P fuel) d = (Panicked, mkState d []).
Proof.
  intros Hneg. unfold invoke, resourceVSphereVirtualMachineCreate.
  unfold mbind at 1. unfold M_bind. by rewrite buildVirtualMachine_panics.
Qed.

(** X9. With at least one disk, the first call of create is the
    provisioning: a deploy when the first disk names a template, a creation
    otherwise. The machine it passes has that template, the datastore of the
    first disk, and the name, vcpu and memory of the resource. *)
Theorem create_provisions_by_template P d fuel :
  0 ≤ GetInt d "network_interface.#" →
  0 < GetInt d "disk.#" →
  ∃ vm,
    head (calls (invoke (resourceVSphereVirtualMachineCreate P fuel) d).2)
    = Some (if bool_decide (GetString d "disk.0.template" ≠ EmptyString)
            then call_deployVirtualMachine vm else call_createVirtualMachine vm) ∧
    virtualMachine.template vm = GetString d "disk.0.template" ∧
    virtualMachine.datastore vm = GetString d "disk.0.datastore" ∧
    virtualMachine.name vm = GetString d "name" ∧
    virtualMachine.vcpu vm = GetInt d "vcpu" ∧
    virtualMachine.memoryMb vm = GetInt d "memory".
Proof.
  intros Hn Hd. exists (machine_of d).
  assert (virtualMachine.template (machine_of d) = GetString d "disk.0.template") as Htemplate.
  { unfold machine_of. simpl. destruct (Z.to_nat (GetInt d "disk.#")) eqn:E; [lia|done]. }
  split; [|split; [done|split]].
  - rewrite create_run by lia.
    assert (provision_call (machine_of d)
            = if bool_decide (GetString d "disk.0.template" ≠ EmptyString)
              then call_deployVirtualMachine (machine_of d)
              else call_createVirtualMachine (machine_of d)) as <-
      by (unfold provision_call; by rewrite Htemplate).
    destruct (provision_answer P (machine_of d)); [done|].
    destruct (read_extends P fuel
                (mkState (SetId d (GetString d "name")) [provision_call (machine_of d)]))
      as (l & ->). done.
  - unfold machine_of. simpl. destruct (Z.to_nat (GetInt d "disk.#")) eqn:E; [lia|done].
  - done.
Qed.

Lemma create_provisions_by_template_witness :
  ∃ vm,
    head (calls (invoke (resourceVSphereVirtualMachineCreate (stub (address_after 0) 0) 0)
                   vm1).2)
    = Some (if bool_decide (GetString vm1 "disk.0.template" ≠ EmptyString)
            then call_deployVirtualMachine vm else call_createVirtualMachine vm) ∧
    virtualMachine.template vm = GetString vm1 "disk.0.template" ∧
    virtualMachine.datastore vm = GetString vm1 "disk.0.datastore" ∧
    virtualMachine.name vm = GetString vm1 "name" ∧
    virtualMachine.vcpu vm = GetInt vm1 "vcpu" ∧
    virtualMachine.memoryMb vm = GetInt vm1 "memory".
Proof.
  apply (create_provisions_by_template (stub (address_after 0) 0) vm1 0%nat); vm_compute; done.
Defined.

(** X10. A create that returns nil has provisioned without error and found
    the datacenter. Either the read that ends it found the machine: the
    identity is the name, and the address is in [ip_address] and in the
    connection info. Or that read did not find the machine just provisioned:
    create still returns nil, with an empty identity. *)
Theorem create_success_identity P d fuel :
  (invoke (resourceVSphereVirtualMachineCreate P fuel) d).1 = Returned None →
  let s' := (invoke (resourceVSphereVirtualMachineCreate P fuel) d).2 in
  ∃ vm dc,
    head (calls s') = Some (provision_call vm) ∧
    provision_answer P vm = None ∧
    datacenter_answer P d = inr dc ∧
    ((∃ ref ip,
        on_VirtualMachine P dc (GetString d "name") = inr ref ∧
        id (rd s') = GetString d "name" ∧
        Get (rd s') "ip_address" = VString ip ∧
        connInfo (rd s') = {[ "host" := ip ]}) ∨
     (∃ err,
        on_VirtualMachine P dc (GetString d "name") = inl err ∧
        id (rd s') = EmptyString)).
Proof.
  intros Hret.
  destruct (decide (0 ≤ GetInt d "network_interface.#" ∧ 0 ≤ GetInt d "disk.#")) as [[Hn Hd]|Hneg];
    [|rewrite create_panics in Hret by lia; discriminate].
  revert Hret. rewrite create_run by done. cbv zeta.
  destruct (provision_answer P (machine_of d)) as [e|] eqn:Hprov; [discriminate|].
  set (s0 := mkState (SetId d (GetString d "name")) [provision_call (machine_of d)]).
  destruct (read_extends P fuel s0) as (l & Hcalls).
  destruct (datacenter_answer P d) as [err|dc] eqn:Hdc.
  { rewrite (read_datacenter_fails_run P fuel s0 err) by done. discriminate. }
  intros Hret. exists (machine_of d), dc.
  split; [by rewrite Hcalls|]. split; [done|]. split; [done|].
  destruct (on_VirtualMachine P dc (GetString d "name")) as [err|ref] eqn:Hvm.
  - right. exists err. split; [done|].
    by rewrite (read_vm_not_found_state P fuel s0 dc err).
  - left.
    destruct (resourceVSphereVirtualMachineRead P fuel s0) as [o s1] eqn:Hread.
    simpl in Hret. subst o.
    apply (read_found_returns P fuel s0 dc ref) in Hread as (_ & mvm & ip & _ & Hrd);
      [|done..].
    exists ref, ip. simpl. rewrite Hrd.
    split; [done|]. split; [by rewrite id_with_address, id_Set|].
    by rewrite Get_with_address.
Qed.

Lemma create_success_identity_witness :
  let s' := (invoke (resourceVSphereVirtualMachineCreate stub_no_vm 0) vm1).2 in
  ∃ vm dc,
    head (calls s') = Some (provision_call vm) ∧
    provision_answer stub_no_vm vm = None ∧
    datacenter_answer stub_no_vm vm1 = inr dc ∧
    ((∃ ref ip,
        on_VirtualMachine stub_no_vm dc (GetString vm1 "name") = inr ref ∧
        id (rd s') = GetString vm1 "name" ∧
        Get (rd s') "ip_address" = VString ip ∧
        connInfo (rd s') = {[ "host" := ip ]}) ∨
     (∃ err,
        on_VirtualMachine stub_no_vm dc (GetString vm1 "name") = inl err ∧
        id (rd s') = EmptyString)).
Proof.
  apply (create_success_identity stub_no_vm vm1 0%nat). vm_compute. reflexivity.
Defined.

Lemma buildVirtualMachine_machine s vm :
  (buildVirtualMachine s).1 = Returned (inr vm) → vm = machine_of (rd s).
Proof.
  destruct (buildVirtualMachine s) as [o s'] eqn:Hrun. simpl. intros ->.
  apply buildVirtualMachine_returns in Hrun as (H & _). congruence.
Qed.

(** X12. The machine built has one disk for each of the [disk.#] disks, in
    order, with the iops of the resource. Its size is the size of the
    resource, except for a first disk that names a template: its size is 0,
    whatever the resource says. *)
Theorem build_hard_disks s vm :
  (buildVirtualMachine s).1 = Returned (inr vm) →
  length (virtualMachine.hardDisks vm) = Z.to_nat (GetInt (rd s) "disk.#") ∧
  ∀ i h,
    virtualMachine.hardDisks vm !! i = Some h →
    hardDisk.iops h = GetInt (rd s) (("disk." +:+ pretty i) +:+ ".iops") ∧
    hardDisk.size h =
      if bool_decide (i = 0%nat ∧ GetString (rd s) "disk.0.template" ≠ EmptyString)
      then 0 else GetInt (rd s) (("disk." +:+ pretty i) +:+ ".size").
Proof.
  intros ->%buildVirtualMachine_machine. unfold machine_of. simpl. split.
  - by rewrite length_fmap, length_seq.
  - intros i h. rewrite list_lookup_fmap.
    intros (j & [-> _]%lookup_seq & ->)%fmap_Some. simpl. split; [done|].
    destruct i as [|i]; [done|]. reflexivity.
Qed.

Lemma build_hard_disks_witness :
  length (virtualMachine.hardDisks (machine_of vm2)) = Z.to_nat (GetInt vm2 "disk.#") ∧
  ∀ i h,
    virtualMachine.hardDisks (machine_of vm2) !! i = Some h →
    hardDisk.iops h = GetInt vm2 (("disk." +:+ pretty i) +:+ ".iops") ∧
    hardDisk.size h =
      if bool_decide (i = 0%nat ∧ GetString vm2 "disk.0.template" ≠ EmptyString)
      then 0 else GetInt vm2 (("disk." +:+ pretty i) +:+ ".size").
Proof.
  apply (build_hard_disks (mkState vm2 []) (machine_of vm2)). vm_compute. reflexivity.
Defined.

(** X13. The machine built has one interface for each of the
    [network_interface.#] interfaces, in order, with its label, address and
    mask (empty when not set). *)
Theorem build_network_interfaces s vm :
  (buildVirtualMachine s).1 = Returned (inr vm) →
  length (virtualMachine.networkInterfaces vm)
  = Z.to_nat (GetInt (rd s) "network_interface.#") ∧
  ∀ i n,
    virtualMachine.networkInterfaces vm !! i = Some n →
    networkInterface.label n
    = GetString (rd s) (("network_interface." +:+ pretty i) +:+ ".label") ∧
    networkInterface.ipAddress n
    = GetString (rd s) (("network_interface." +:+ pretty i) +:+ ".ip_address") ∧
    networkInterface.subnetMask n
    = GetString (rd s) (("network_interface." +:+ pretty i) +:+ ".subnet_mask").
Proof.
  intros ->%buildVirtualMachine_machine. unfold machine_of. simpl. split.
  - by rewrite length_fmap, length_seq.
  - intros i n. rewrite list_lookup_fmap.
    by intros (j & [-> _]%lookup_seq & ->)%fmap_Some.
Qed.

Lemma build_network_interfaces_witness :
  length (virtualMachine.networkInterfaces (machine_of vm2))
  = Z.to_nat (GetInt vm2 "network_interface.#") ∧
  ∀ i n,
    virtualMachine.networkInterfaces (machine_of vm2) !! i = Some n →
    networkInterface.label n
    = GetString vm2 (("network_interface." +:+ pretty i) +:+ ".label") ∧
    networkInterface.ipAddress n
    = GetString vm2 (("network_interface." +:+ pretty i) +:+ ".ip_address") ∧
    networkInterface.subnetMask n
    = GetString vm2 (("network_interface." +:+ pretty i) +:+ ".subnet_mask").
Proof.
  apply (build_network_interfaces (mkState vm2 []) (machine_of vm2)). vm_compute. reflexivity.
Defined.

(** X14. Without DNS suffixes the machine built has the default one, without
    DNS servers the two default ones; otherwise it has the suffixes, and the
    servers, of the resource, in order. *)
Theorem build_dns_lists s vm :
  (buildVirtualMachine s).1 = Returned (inr vm) →
  (GetInt (rd s) "dns_suffix.#" ≤ 0 → virtualMachine.dnsSuffixes vm = ["vsphere.local"]) ∧
  (GetInt (rd s) "dns_server.#" ≤ 0 → virtualMachine.dnsServers vm = ["8.8.8.8"; "8.8.4.4"]) ∧
  (0 < GetInt (rd s) "dns_suffix.#" →
   length (virtualMachine.dnsSuffixes vm) = Z.to_nat (GetInt (rd s) "dns_suffix.#") ∧
   ∀ i x, virtualMachine.dnsSuffixes vm !! i = Some x →
          x = GetString (rd s) ("dns_suffix." +:+ pretty i)) ∧
  (0 < GetInt (rd s) "dns_server.#" →
   length (virtualMachine.dnsServers vm) = Z.to_nat (GetInt (rd s) "dns_server.#") ∧
   ∀ i x, virtualMachine.dnsServers vm !! i = Some x →
          x = GetString (rd s) ("dns_server." +:+ pretty i)).
Proof.
  intros ->%buildVirtualMachine_machine. unfold machine_of, items_of. simpl.
  repeat split.
  - intros H. by rewrite bool_decide_eq_false_2 by lia.
  - intros H. by rewrite bool_decide_eq_false_2 by lia.
  - rewrite bool_decide_eq_true_2 by done. by rewrite length_fmap, length_seq.
  - rewrite bool_decide_eq_true_2 by done. intros i x. rewrite list_lookup_fmap.
    by intros (j & [-> _]%lookup_seq & ->)%fmap_Some.
  - rewrite bool_decide_eq_true_2 by done. by rewrite length_fmap, length_seq.
  - rewrite bool_decide_eq_true_2 by done. intros i x. rewrite list_lookup_fmap.
    by intros (j & [-> _]%lookup_seq & ->)%fmap_Some.
Qed.

Lemma build_dns_lists_witness :
  (GetInt vm2 "dns_suffix.#" ≤ 0 →
   virtualMachine.dnsSuffixes (machine_of vm2) = ["vsphere.local"]) ∧
  (GetInt vm2 "dns_server.#" ≤ 0 →
   virtualMachine.dnsServers (machine_of vm2) = ["8.8.8.8"; "8.8.4.4"]) ∧
  (0 < GetInt vm2 "dns_suffix.#" →
   length (virtualMachine.dnsSuffixes (machine_of vm2))
   = Z.to_nat (GetInt vm2 "dns_suffix.#") ∧
   ∀ i x, virtualMachine.dnsSuffixes (machine_of vm2) !! i = Some x →
          x = GetString vm2 ("dns_suffix." +:+ pretty i)) ∧
  (0 < GetInt vm2 "dns_server.#" →
   length (virtualMachine.dnsServers (machine_of vm2))
   = Z.to_nat (GetInt vm2 "dns_server.#") ∧
   ∀ i x, virtualMachine.dnsServers (machine_of vm2) !! i = Some x →
          x = GetString vm2 ("dns_server." +:+ pretty i)).
Proof.
  apply (build_dns_lists (mkState vm2 []) (machine_of vm2)). vm_compute. reflexivity.
Defined.

(** X15. A delete whose datacenter lookup or machine lookup fails returns
    that error: the lookups are its only calls, no task is submitted, and the
    resource data, identity included, are as they were. (A read clears the
    identity when the machine is not found; a delete does not.) *)
Theorem delete_lookup_fails P d err :
  datacenter_answer P d = inl err ∨
  (∃ dc, datacenter_answer P d = inr dc ∧
         on_VirtualMachine P dc (GetString d "name") = inl err) →
  (invoke (resourceVSphereVirtualMachineDelete P) d).1 = Returned (Some err) ∧
  rd (invoke (resourceVSphereVirtualMachineDelete P) d).2 = d ∧
  (calls (invoke (resourceVSphereVirtualMachineDelete P) d).2 = [datacenter_call d] ∨
   ∃ dc, calls (invoke (resourceVSphereVirtualMachineDelete P) d).2
         = [datacenter_call d; call_VirtualMachine dc (GetString d "name")]).
Proof.
  unfold invoke, resourceVSphereVirtualMachineDelete.
  intros [Hdc|(dc & Hdc & Hvm)]; run; rewrite Hdc; run; [|rewrite Hvm; run];
    (split; [done|]); (split; [done|]); [by left|right; by exists dc].
Qed.

Lemma delete_lookup_fails_witness :
  (invoke (resourceVSphereVirtualMachineDelete stub_no_vm) vm1).1
  = Returned (Some "vm not found") ∧
  rd (invoke (resourceVSphereVirtualMachineDelete stub_no_vm) vm1).2 = vm1 ∧
  (calls (invoke (resourceVSphereVirtualMachineDelete stub_no_vm) vm1).2
   = [datacenter_call vm1] ∨
   ∃ dc, calls (invoke (resourceVSphereVirtualMachineDelete stub_no_vm) vm1).2
         = [datacenter_call vm1; call_VirtualMachine dc (GetString vm1 "name")]).
Proof.
  apply (delete_lookup_fails stub_no_vm vm1 "vm not found").
  right. exists "dc1". by vm_compute.
Defined.

Lemma create_error_needs_a_call_witness :
  ∃ vm,
    head (calls (invoke (resourceVSphereVirtualMachineCreate stub_create_fails 0) vm1).2)
    = Some (provision_call vm).
Proof.
  apply (create_error_needs_a_call stub_create_fails vm1 0%nat "error: create failed"
           (invoke (resourceVSphereVirtualMachineCreate stub_create_fails 0) vm1).2).
  vm_compute. reflexivity.
Defined.
